(** * The captain / specialist task hand-off of flashbacker-mcp

    A shallow embedding of [agents/scripts/captain.py] and
    [agents/scripts/specialist_agent.py], and the properties of the
    delegation protocol that hold (or fail) on that code.

    The two scripts talk through files: the captain writes
    [/tmp/agent_tasks/<role>.json], a specialist polls that file, runs the
    task, writes [/tmp/agent_results/<role>_result.json] and removes the
    task file.  Both scripts are sequences of system calls, prints and
    sleeps, with Python exceptions threaded through them; they are
    modelled in a state-and-exception monad over a [world] that holds the
    files, a schedule of the faults the operating system will deliver, and
    the trace of what happened so far. *)

From Stdlib Require Import ZArith Ascii String List Sorted Permutation Lia.
From stdpp Require Import base strings gmap list.

Set Warnings "-register-all".

Local Open Scope Z_scope.
Local Open Scope string_scope.

(** ** Python values, exceptions and the process environment *)

Module Py.

(** What [json.loads] returns and [json.dumps] accepts.  A [dict] keeps
    its keys in insertion order, so it is an association list (each key
    bound once, as in Python).  A float is kept as its literal. *)
Inductive json : Type :=
  | JNull
  | JBool (b : bool)
  | JInt (z : Z)
  | JFloat (literal : string)
  | JStr (s : string)
  | JList (items : list json)
  | JDict (entries : list (string * json)).

(** [d.get(key)] on the entries of a dict. *)
Fixpoint dict_get (key : string) (entries : list (string * json)) : option json :=
  match entries with
  | [] => None
  | (k, v) :: rest => if String.eqb k key then Some v else dict_get key rest
  end.

(** [d[key] = v] on the entries of a dict: the binding is replaced in
    place, or appended when the key is new. *)
Fixpoint dict_set (key : string) (v : json) (entries : list (string * json))
  : list (string * json) :=
  match entries with
  | [] => [(key, v)]
  | (k, old) :: rest =>
      if String.eqb k key then (k, v) :: rest else (k, old) :: dict_set key v rest
  end.

(** The exception classes these scripts meet.  [KeyboardInterrupt] is the
    only one that is not a subclass of [Exception]. *)
Inductive exn_class : Type :=
  | KeyError
  | TypeError
  | AttributeError
  | JSONDecodeError
  | OSError
  | FileNotFoundError
  | OtherException (name : string)
  | KeyboardInterrupt.

(** An exception; [exn_str] is what [str(e)] gives. *)
Record exn : Type := Exn { exn_cls : exn_class; exn_str : string }.

(** What [except Exception] catches. *)
Definition is_Exception (e : exn) : bool :=
  match exn_cls e with
  | KeyboardInterrupt => false
  | _ => true
  end.

(** [str(KeyError(key))] is the repr of the key; the keys subscripted in
    these scripts are the literals ['task'] and ['context']. *)
Definition key_error (key : string) : exn :=
  Exn KeyError ("'" +:+ key +:+ "'").

(** The result of evaluating an expression: a value, or a raised
    exception. *)
Inductive outcome (A : Type) : Type :=
  | Ok (a : A)
  | Raise (e : exn).
Arguments Ok {A} a.
Arguments Raise {A} e.

(** [v[key]] for a string key.  Only a dict can be subscripted by a
    string; the messages of the other cases are CPython's. *)
Definition subscript (v : json) (key : string) : outcome json :=
  match v with
  | JDict entries =>
      match dict_get key entries with
      | Some x => Ok x
      | None => Raise (key_error key)
      end
  | JList _ => Raise (Exn TypeError "list indices must be integers or slices, not str")
  | JStr _ => Raise (Exn TypeError "string indices must be integers, not 'str'")
  | JNull => Raise (Exn TypeError "'NoneType' object is not subscriptable")
  | JBool _ => Raise (Exn TypeError "'bool' object is not subscriptable")
  | JInt _ => Raise (Exn TypeError "'int' object is not subscriptable")
  | JFloat _ => Raise (Exn TypeError "'float' object is not subscriptable")
  end.

(** The text of a file, up to JSON equivalence: [Doc v] is a text that
    [json.loads] parses to [v] (in particular the text [json.dumps(v)]);
    [Garbled] is a text that [json.loads] rejects. *)
Inductive content : Type :=
  | Doc (v : json)
  | Garbled (text : string).

Definition json_dumps (v : json) : content := Doc v.

Definition json_loads (c : content) : outcome json :=
  match c with
  | Doc v => Ok v
  | Garbled _ => Raise (Exn JSONDecodeError "Expecting value")
  end.

(** What a system call can meet: it goes through, the operating system
    refuses it (missing directory, permissions: an [OSError]), or the
    process receives SIGINT while inside it. *)
Inductive fault : Type :=
  | Fine
  | Refused (msg : string)
  | Interrupted.

(** The lines the scripts print, kept symbolic. *)
Inductive message : Type :=
  | MsgStarting (agent_id specialist_type : string)
  | MsgWatching (task_file : string)
  | MsgExecuting (agent_role : string) (task : json)
  | MsgPersonaUnavailable (persona : string)
  | MsgPersonaFailed (e : exn)
  | MsgError (e : exn)
  | MsgResultSaved (result_file : string)
  | MsgShuttingDown (agent_id : string)
  | MsgWorkflowStart
  | MsgDelegating (agent_role task_description : string)
  | MsgDelegated (agent_role : string)
  | MsgDelegateResult (result : json)
  | MsgAllDelegated
  | MsgMonitorHint.

(** What is observable of a run, oldest first. *)
Inductive event : Type :=
  | Print (m : message)
  | Sleep (seconds : Z)
  | Read (path : string)
  | Wrote (path : string) (c : content)
  | Unlinked (path : string).

Record world : Type := World {
  files : gmap string content;
  faults : list fault;
  trace : list event
}.

(** The outcome of [subprocess.run] on [flashback persona <name>
    --context]: the command ran and exited, or [subprocess.run] raised
    (the executable is missing, the timeout expired). *)
Inductive proc : Type :=
  | Exited (returncode : Z) (stdout : string)
  | SpawnFailed (error_class msg : string).

(** The [flashback] executable found on the path. *)
Class Flashback := flashback_persona : string -> proc.

(** *** The monad of a script: state and exceptions *)

Definition io (A : Type) : Type := world -> outcome A * world.

Definition ret {A} (a : A) : io A := fun w => (Ok a, w).

Definition raise {A} (e : exn) : io A := fun w => (Raise e, w).

Definition bind {A B} (m : io A) (k : A -> io B) : io B :=
  fun w =>
    match m w with
    | (Ok a, w') => k a w'
    | (Raise e, w') => (Raise e, w')
    end.

Definition lift {A} (o : outcome A) : io A := fun w => (o, w).

(** [try: body / except Exception as e: handler(e)]. *)
Definition try_except {A} (body : io A) (handler : exn -> io A) : io A :=
  fun w =>
    match body w with
    | (Ok a, w') => (Ok a, w')
    | (Raise e, w') => if is_Exception e then handler e w' else (Raise e, w')
    end.

Definition emit (ev : event) : io unit :=
  fun w => (Ok tt, World (files w) (faults w) (trace w ++ [ev])).

Definition print (m : message) : io unit := emit (Print m).

(** Entering a system call consumes the next entry of the fault schedule;
    an exhausted schedule means no further fault. *)
Definition syscall : io unit :=
  fun w =>
    match faults w with
    | [] => (Ok tt, w)
    | Fine :: rest => (Ok tt, World (files w) rest (trace w))
    | Refused msg :: rest => (Raise (Exn OSError msg), World (files w) rest (trace w))
    | Interrupted :: rest =>
        (Raise (Exn KeyboardInterrupt ""), World (files w) rest (trace w))
    end.

(** [time.sleep] cannot be refused, only interrupted. *)
Definition sleep (seconds : Z) : io unit :=
  fun w =>
    match faults w with
    | Interrupted :: rest =>
        (Raise (Exn KeyboardInterrupt ""), World (files w) rest (trace w))
    | _ => (Ok tt, World (files w) (tail (faults w)) (trace w ++ [Sleep seconds]))
    end.

Definition get_files : io (gmap string content) := fun w => (Ok (files w), w).

Definition set_files (fs : gmap string content) : io unit :=
  fun w => (Ok tt, World fs (faults w) (trace w)).

Declare Scope io_scope.
Delimit Scope io_scope with io.
Notation "'do' x <- m ; k" := (bind m (fun x => k))
  (at level 10, x name, m at level 100, k at level 200,
   format "'[v' 'do'  x  <-  m ; '/' k ']'") : io_scope.
Notation "'run' m ; k" := (bind m (fun _ => k))
  (at level 10, m at level 100, k at level 200,
   format "'[v' 'run'  m ; '/' k ']'") : io_scope.
Local Open Scope io_scope.

(** [Path.exists()]. *)
Definition path_exists (p : string) : io bool :=
  run syscall;
  do fs <- get_files;
  ret (bool_decide (is_Some (fs !! p))).

(** [Path.read_text()]. *)
Definition read_text (p : string) : io content :=
  run syscall;
  do fs <- get_files;
  match fs !! p with
  | Some c => run emit (Read p); ret c
  | None => raise (Exn FileNotFoundError p)
  end.

(** [Path.write_text(c)]: the call is refused when the file cannot be
    opened, which leaves the file as it was. *)
Definition write_text (p : string) (c : content) : io unit :=
  run syscall;
  do fs <- get_files;
  run set_files (<[p := c]> fs);
  emit (Wrote p c).

(** [Path.unlink()]. *)
Definition unlink (p : string) : io unit :=
  run syscall;
  do fs <- get_files;
  match fs !! p with
  | Some _ => run set_files (delete p fs); emit (Unlinked p)
  | None => raise (Exn FileNotFoundError p)
  end.

(** [Path.mkdir(exist_ok=True)]: directories are not tracked, only
    whether the call goes through. *)
Definition mkdir_exist_ok (p : string) : io unit := syscall.

End Py.

(** ** The specialist worker ([specialist_agent.py]) *)

Module Specialist.
Import Py.
Local Open Scope io_scope.

(** The seven content generators of [SpecialistAgent].  Each builds a
    report from [task['context']] with [context.get], f-strings and
    [str.join]; what text they return hangs on Python's formatting of
    arbitrary values and is of no concern to the protocol.  What matters
    is that a call returns a string or raises (a context that is not a
    dict has no [get], a [focus_areas] that is a number cannot be joined,
    a [lines_of_code] that is a string cannot be divided), so they are an
    interface and every result below holds for every implementation. *)
Class Capabilities := {
  review_architecture : json -> outcome string;
  analyze_database : json -> outcome string;
  translate_rust : json -> outcome string;
  setup_infrastructure : json -> outcome string;
  create_tests : json -> outcome string;
  audit_security : json -> outcome string;
  design_api : json -> outcome string
}.

Record SpecialistAgent : Type := {
  agent_role : string;
  agent_id : string;
  specialist_type : string;
  flashbacker_persona : string;
  task_dir : string;
  task_file : string;
  results_dir : string
}.

(** [os.getenv(name, default)]. *)
Definition getenv (env : gmap string string) (name fallback : string) : string :=
  default fallback (env !! name).

(** [dir / name] of [pathlib]: an absolute right operand replaces the
    left one.  Paths are kept as written (no collapsing of [//] or [.]),
    and compared as strings. *)
Definition path_join (dir name : string) : string :=
  match name with
  | String "/"%char _ => name
  | _ => dir +:+ "/" +:+ name
  end.

(** The attributes [__init__] sets, from the process environment. *)
Definition make_agent (env : gmap string string) : SpecialistAgent :=
  let role := getenv env "AGENT_ROLE" "unknown" in
  {| agent_role := role;
     agent_id := getenv env "AGENT_ID" (role +:+ "-001");
     specialist_type := getenv env "SPECIALIST_TYPE" "general";
     flashbacker_persona := getenv env "FLASHBACKER_PERSONA" role;
     task_dir := "/tmp/agent_tasks";
     task_file := path_join "/tmp/agent_tasks" (role +:+ ".json");
     results_dir := "/tmp/agent_results" |}.

(** [SpecialistAgent.__init__]. *)
Definition init (env : gmap string string) : io SpecialistAgent :=
  let self := make_agent env in
  run mkdir_exist_ok (results_dir self);
  ret self.

(** [subprocess.run(["flashback", "persona", persona, "--context"], ...)]. *)
Definition subprocess_run `{Flashback} (persona : string) : io (Z * string) :=
  match flashback_persona persona with
  | Exited returncode stdout => ret (returncode, stdout)
  | SpawnFailed error_class msg => raise (Exn (OtherException error_class) msg)
  end.

(** [SpecialistAgent.get_persona_context]. *)
Definition get_persona_context `{Flashback} (self : SpecialistAgent) : io string :=
  try_except
    (do result <- subprocess_run (flashbacker_persona self);
     if Z.eqb (fst result) 0 then ret (snd result)
     else
       run print (MsgPersonaUnavailable (flashbacker_persona self));
       ret "")
    (fun e =>
       run print (MsgPersonaFailed e);
       ret "").

(** The [if]/[elif] chain of [execute_task]: the value assigned to
    [result["output"]], or the exception raised while computing it. *)
Definition specialist_output `{Capabilities} (self : SpecialistAgent) (task : json)
  : outcome string :=
  let on_context (capability : json -> outcome string) :=
    match subscript task "context" with
    | Ok context => capability context
    | Raise e => Raise e
    end in
  if String.eqb (specialist_type self) "architecture" then on_context review_architecture
  else if String.eqb (specialist_type self) "database" then on_context analyze_database
  else if String.eqb (specialist_type self) "rust-translation" then on_context translate_rust
  else if String.eqb (specialist_type self) "infrastructure" then on_context setup_infrastructure
  else if String.eqb (specialist_type self) "testing" then on_context create_tests
  else if String.eqb (specialist_type self) "security-audit" then on_context audit_security
  else if String.eqb (specialist_type self) "api-design" then on_context design_api
  else Ok ("Generic processing for " +:+ specialist_type self).

(** [result["errors"].append(msg)]. *)
Definition errors_append (msg : string) (result : list (string * json))
  : list (string * json) :=
  match dict_get "errors" result with
  | Some (JList errors) => dict_set "errors" (JList (errors ++ [JStr msg])) result
  | _ => result
  end.

(** [SpecialistAgent.execute_task]. *)
Definition execute_task `{Flashback} `{Capabilities}
    (self : SpecialistAgent) (task : json) : io json :=
  do described <- lift (subscript task "task");
  run print (MsgExecuting (agent_role self) described);
  do persona_context <- get_persona_context self;
  do echoed <- lift (subscript task "task");
  let result :=
    [ ("agent_id", JStr (agent_id self));
      ("agent_role", JStr (agent_role self));
      ("task", echoed);
      ("status", JStr "processing");
      ("output", JNull);
      ("errors", JList []) ] in
  do result <-
    try_except
      (do output <- lift (specialist_output self task);
       ret (dict_set "status" (JStr "completed")
              (dict_set "output" (JStr output) result)))
      (fun e =>
         let result := errors_append (exn_str e)
                         (dict_set "status" (JStr "error") result) in
         run print (MsgError e);
         ret result);
  ret (JDict result).

(** [self.results_dir / f"{self.agent_role}_result.json"]. *)
Definition result_file (self : SpecialistAgent) : string :=
  path_join (results_dir self) (agent_role self +:+ "_result.json").

(** The head of the loop body: the [exists] test and the load of the
    task ([None] when there is no task file). *)
Definition load_task (self : SpecialistAgent) : io (option json) :=
  do present <- path_exists (task_file self);
  if present : bool then
    do text <- read_text (task_file self);
    do task <- lift (json_loads text);
    ret (Some task)
  else ret None.

(** The rest of the [if] branch: execute, save the result, remove the
    task file. *)
Definition process_task `{Flashback} `{Capabilities}
    (self : SpecialistAgent) (task : json) : io unit :=
  do result <- execute_task self task;
  run write_text (result_file self) (json_dumps result);
  run print (MsgResultSaved (result_file self));
  unlink (task_file self).

(** The body of the [try] in [poll_and_process]. *)
Definition iteration `{Flashback} `{Capabilities} (self : SpecialistAgent) : io unit :=
  do loaded <- load_task self;
  match loaded with
  | Some task => process_task self task
  | None => sleep 5
  end.

Inductive loop_ctl : Type := Next | Break.

(** One turn of the [while True]: the [try] with its two handlers. *)
Definition poll_step `{Flashback} `{Capabilities} (self : SpecialistAgent) : io loop_ctl :=
  fun w =>
    match iteration self w with
    | (Ok _, w') => (Ok Next, w')
    | (Raise e, w') =>
        match exn_cls e with
        | KeyboardInterrupt =>
            (run print (MsgShuttingDown (agent_id self)); ret Break) w'
        | _ =>
            (run print (MsgError e); run sleep 5; ret Next) w'
        end
    end.

(** The [while True] loop, cut after [turns] turns: [Next] says the loop
    is still running, [Break] that it was left. *)
Fixpoint poll_loop `{Flashback} `{Capabilities}
    (self : SpecialistAgent) (turns : nat) : io loop_ctl :=
  match turns with
  | O => ret Next
  | S turns' =>
      do ctl <- poll_step self;
      match ctl with
      | Break => ret Break
      | Next => poll_loop self turns'
      end
  end.

(** [SpecialistAgent.poll_and_process]. *)
Definition poll_and_process `{Flashback} `{Capabilities}
    (self : SpecialistAgent) (turns : nat) : io loop_ctl :=
  run print (MsgStarting (agent_id self) (specialist_type self));
  run print (MsgWatching (task_file self));
  poll_loop self turns.

End Specialist.

(** ** The captain ([captain.py]) *)

Module Captain.
Import Py.
Local Open Scope io_scope.

(** The dataclass [AgentTask]. *)
Record AgentTask : Type := {
  agent_role : string;
  task_description : string;
  context : json;
  priority : Z
}.

(** [FlashbackerIntegration.get_persona_context]. *)
Definition get_persona_context `{Flashback} (persona : string) : io string :=
  try_except
    (match flashback_persona persona with
     | Exited returncode stdout => ret (if Z.eqb returncode 0 then stdout else "")
     | SpawnFailed error_class msg => raise (Exn (OtherException error_class) msg)
     end)
    (fun e =>
       run print (MsgPersonaFailed e);
       ret "").

(** [Path(f"/tmp/agent_tasks/{task.agent_role}.json")]. *)
Definition task_file (role : string) : string :=
  "/tmp/agent_tasks/" +:+ role +:+ ".json".

(** The dict [task_payload] built by [delegate_task]. *)
Definition task_payload (task : AgentTask) (persona_context : string) : json :=
  JDict
    [ ("agent", JStr (agent_role task));
      ("task", JStr (task_description task));
      ("context", context task);
      ("persona_context", JStr persona_context);
      ("priority", JInt (priority task)) ].

(** [CaptainOrchestrator.delegate_task]. *)
Definition delegate_task `{Flashback} (task : AgentTask) : io json :=
  run print (MsgDelegating (agent_role task) (task_description task));
  do persona_context <- get_persona_context (agent_role task);
  let payload := task_payload task persona_context in
  let file := task_file (agent_role task) in
  run mkdir_exist_ok "/tmp/agent_tasks";
  run write_text file (json_dumps payload);
  run print (MsgDelegated (agent_role task));
  ret (JDict [("status", JStr "delegated"); ("task_file", JStr file)]).

(** [list.sort(key=key, reverse=True)]: Python's sort is stable, also
    when reversed, so elements with equal keys keep their order.  It is
    given by the insertion sort with that behaviour. *)
Fixpoint insert_reverse {A} (key : A -> Z) (x : A) (sorted : list A) : list A :=
  match sorted with
  | [] => [x]
  | y :: rest =>
      if Z.ltb (key x) (key y) then y :: insert_reverse key x rest else x :: y :: rest
  end.

Fixpoint sort_reverse {A} (key : A -> Z) (l : list A) : list A :=
  match l with
  | [] => []
  | x :: rest => insert_reverse key x (sort_reverse key rest)
  end.

(** The [for task in tasks] loop of [process_commercerack_migration]. *)
Fixpoint delegate_each `{Flashback} (tasks : list AgentTask) : io unit :=
  match tasks with
  | [] => ret tt
  | task :: rest =>
      do result <- delegate_task task;
      run print (MsgDelegateResult result);
      run sleep 1;
      delegate_each rest
  end.

(** The body of [process_commercerack_migration] once [tasks] is
    defined: sort by priority, delegate one by one, report. *)
Definition delegate_in_priority_order `{Flashback} (tasks : list AgentTask) : io unit :=
  let tasks := sort_reverse priority tasks in
  run delegate_each tasks;
  run print MsgAllDelegated;
  print MsgMonitorHint.

(** The seven tasks of the migration workflow, in the order of the
    source. *)
Definition migration_tasks : list AgentTask :=
  [ {| agent_role := "architect";
       task_description := "Review Cargo workspace structure and recommend improvements";
       context := JDict [ ("workspace_path", JStr "commercerack-rust");
                          ("crates_count", JInt 12);
                          ("focus", JStr "modular architecture") ];
       priority := 10 |};
    {| agent_role := "database-architect";
       task_description := "Complete Postgres schema migration for remaining 130 tables";
       context := JDict [ ("schema_path", JStr "migrations/001_initial_schema.sql");
                          ("remaining_tables", JInt 130);
                          ("source", JStr "/home/user/commercerack-backend/schema.sql") ];
       priority := 9 |};
    {| agent_role := "rust-expert";
       task_description := "Translate CUSTOMER.pm to Rust customer crate";
       context := JDict [ ("source_file", JStr "/home/user/commercerack-backend/lib/CUSTOMER.pm");
                          ("target_crate", JStr "crates/customer");
                          ("lines_of_code", JInt 2579) ];
       priority := 8 |};
    {| agent_role := "devops";
       task_description := "Set up k0s cluster and deploy CommerceRack containers";
       context := JDict [ ("terraform_path", JStr "infra/k0s");
                          ("use_opentofu", JBool true);
                          ("k0s_version", JStr "latest") ];
       priority := 7 |};
    {| agent_role := "qa";
       task_description := "Create integration test suite for database layer";
       context := JDict [ ("test_path", JStr "crates/db/tests");
                          ("framework", JStr "cargo test");
                          ("coverage_target", JInt 80) ];
       priority := 6 |};
    {| agent_role := "security";
       task_description := "Audit password hashing and authentication patterns";
       context := JDict [ ("focus_areas", JList [ JStr "password_hashing";
                                                   JStr "session_management";
                                                   JStr "sql_injection" ]);
                          ("target", JStr "crates/customer") ];
       priority := 8 |};
    {| agent_role := "api-designer";
       task_description := "Design RESTful API schema for Axum server";
       context := JDict [ ("endpoints", JList [ JStr "customers"; JStr "products";
                                                 JStr "orders"; JStr "cart" ]);
                          ("auth_type", JStr "JWT");
                          ("api_version", JStr "v1") ];
       priority := 7 |} ].

(** [CaptainOrchestrator.process_commercerack_migration]. *)
Definition process_commercerack_migration `{Flashback} : io unit :=
  run print MsgWorkflowStart;
  delegate_in_priority_order migration_tasks.

End Captain.

(** * Properties *)

Import Py.
Local Open Scope list_scope.
Local Open Scope io_scope.

(** ** The monad and the system calls *)

Section MonadFacts.


Lemma bind_step {A B} (m : io A) (k : A -> io B) w a w1 :
  m w = (Ok a, w1) -> bind m k w = k a w1.
Proof. unfold bind. intros ->. reflexivity. Qed.

Lemma bind_abort {A B} (m : io A) (k : A -> io B) w e w1 :
  m w = (Raise e, w1) -> bind m k w = (Raise e, w1).
Proof. unfold bind. intros ->. reflexivity. Qed.

End MonadFacts.

(** A world in which no interrupt is pending. *)
Definition calm (w : world) : Prop := Forall (fun f => f <> Interrupted) (faults w).

(** What a system call leaves behind, whatever the next fault is. *)
Lemma syscall_frame w o w' :
  syscall w = (o, w') ->
  files w' = files w /\ trace w' = trace w /\ faults w' = tail (faults w).
Proof.
  unfold syscall. destruct w as [fs fl tr]; simpl.
  destruct fl as [| [| msg |] rest]; intros [= <- <-]; simpl; auto.
Qed.


Lemma syscall_calm w o w' :
  calm w -> syscall w = (o, w') ->
  calm w' /\ match o with Ok _ => True | Raise e => exn_cls e = OSError end.
Proof.
  unfold syscall, calm. destruct w as [fs fl tr]; simpl. intros Hc.
  destruct fl as [| [| msg |] rest]; intros [= <- <-]; simpl.
  - auto.
  - inversion Hc; auto.
  - inversion Hc; auto.
  - inversion Hc as [| ? ? Hne ?]. contradiction.
Qed.

Lemma sleep_calm w n :
  calm w ->
  sleep n w = (Ok tt, World (files w) (tail (faults w)) (trace w ++ [Sleep n])) /\
  calm (World (files w) (tail (faults w)) (trace w ++ [Sleep n])).
Proof.
  unfold sleep, calm. destruct w as [fs fl tr]; simpl. intros Hc.
  destruct fl as [| [| msg |] rest]; simpl; split; auto;
    try (inversion Hc; assumption).
  all: inversion Hc as [| ? ? Hne ?]; contradiction.
Qed.

Lemma path_exists_frame p w o w' :
  path_exists p w = (o, w') ->
  files w' = files w /\ trace w' = trace w /\ faults w' = tail (faults w) /\
  (forall b, o = Ok b -> b = bool_decide (is_Some (files w !! p))).
Proof.
  unfold path_exists, bind, get_files, ret.
  destruct (syscall w) as [[[] | e] w1] eqn:Hs; intros [= <- <-];
    destruct (syscall_frame _ _ _ Hs) as (Hf & Ht & Hq);
    repeat split; auto; try discriminate.
  intros b [= <-]. rewrite Hf. reflexivity.
Qed.

Lemma read_text_frame p w o w' :
  read_text p w = (o, w') ->
  files w' = files w /\ faults w' = tail (faults w) /\
  (forall c, o = Ok c -> files w !! p = Some c /\ trace w' = trace w ++ [Read p]) /\
  (forall e, o = Raise e -> trace w' = trace w).
Proof.
  unfold read_text, bind, get_files, ret, raise, emit.
  destruct (syscall w) as [[[] | e] w1] eqn:Hs;
    destruct (syscall_frame _ _ _ Hs) as (Hf & Ht & Hq).
  - destruct (files w1 !! p) as [c |] eqn:Hl; intros [= <- <-]; simpl.
    + split; [exact Hf |]. split; [exact Hq |]. split.
      * intros c' [= <-]. rewrite <- Hf, Ht. auto.
      * discriminate.
    + split; [exact Hf |]. split; [exact Hq |]. split.
      * discriminate.
      * intros _ _. exact Ht.
  - intros [= <- <-]. split; [exact Hf |]. split; [exact Hq |]. split.
    + discriminate.
    + intros _ _. exact Ht.
Qed.

Lemma write_text_frame p c w o w' :
  write_text p c w = (o, w') ->
  faults w' = tail (faults w) /\
  match o with
  | Ok _ => files w' = <[p := c]> (files w) /\ trace w' = trace w ++ [Wrote p c]
  | Raise _ => files w' = files w /\ trace w' = trace w
  end.
Proof.
  unfold write_text, bind, get_files, set_files, emit.
  destruct (syscall w) as [[[] | e] w1] eqn:Hs;
    destruct (syscall_frame _ _ _ Hs) as (Hf & Ht & Hq);
    intros [= <- <-]; simpl; rewrite ?Hf, ?Ht; auto.
Qed.


(** ** Paths *)

Lemma append_cancel_l (s a b : string) : s +:+ a = s +:+ b -> a = b.
Proof. induction s as [| c s IH]; simpl; [auto | intros [= H]; auto]. Qed.

Lemma path_join_relative dir name :
  (forall rest, name <> String "/" rest) ->
  Specialist.path_join dir name = dir +:+ "/" +:+ name.
Proof.
  intros Hrel. destruct name as [| c rest]; [reflexivity |].
  destruct c as [[] [] [] [] [] [] [] []]; try reflexivity.
  exfalso. eapply Hrel. reflexivity.
Qed.

(** A worker never mistakes its result file for its task file. *)
Lemma task_file_not_result_file env :
  Specialist.task_file (Specialist.make_agent env)
  <> Specialist.result_file (Specialist.make_agent env).
Proof.
  unfold Specialist.result_file. simpl.
  generalize (Specialist.getenv env "AGENT_ROLE" "unknown"). intros role.
  destruct role as [| c rest].
  - simpl. discriminate.
  - destruct (ascii_dec c "/") as [-> | Hc].
    + simpl. intros [= H]. apply append_cancel_l in H. discriminate H.
    + rewrite !path_join_relative by (simpl; intros r [= ? ?]; contradiction).
      simpl. discriminate.
Qed.

(** For a role that is not an absolute path, the file the worker
    watches is the file the captain writes. *)
Lemma worker_watches_captain_slot env :
  (forall rest, Specialist.getenv env "AGENT_ROLE" "unknown" <> String "/" rest) ->
  Specialist.task_file (Specialist.make_agent env)
  = Captain.task_file (Specialist.getenv env "AGENT_ROLE" "unknown").
Proof.
  intros Hrel. simpl. unfold Captain.task_file.
  rewrite path_join_relative; [reflexivity |].
  intros rest. destruct (Specialist.getenv env "AGENT_ROLE" "unknown") as [| c r]; simpl.
  - discriminate.
  - intros [= -> _]. eapply Hrel. reflexivity.
Qed.

(** ** What a trace says was written *)

Definition written_by (ev : event) : list (string * content) :=
  match ev with
  | Wrote p c => [(p, c)]
  | _ => []
  end.

(** The writes of a trace, oldest first. *)
Definition written (tr : list event) : list (string * content) :=
  flat_map written_by tr.

Definition is_print (ev : event) : Prop :=
  match ev with
  | Print _ => True
  | _ => False
  end.

Lemma written_app tr1 tr2 : written (tr1 ++ tr2) = written tr1 ++ written tr2.
Proof. unfold written. apply flat_map_app. Qed.

Lemma written_cons ev tr : written (ev :: tr) = written_by ev ++ written tr.
Proof. reflexivity. Qed.

Lemma written_prints evs : Forall is_print evs -> written evs = [].
Proof.
  induction 1 as [| ev evs Hev _ IH]; [reflexivity |].
  destruct ev; try contradiction. exact IH.
Qed.

Lemma sleep_frame n w o w' :
  sleep n w = (o, w') ->
  files w' = files w /\ faults w' = tail (faults w) /\
  written (trace w') = written (trace w).
Proof.
  unfold sleep. destruct w as [fs fl tr]; simpl.
  destruct fl as [| [| msg |] rest]; intros [= <- <-]; simpl;
    rewrite ?written_app; simpl; rewrite ?app_nil_r; auto.
Qed.

(** ** The worker: [execute_task] *)

Section ExecuteTask.
Context `{F : Flashback} `{C : Specialist.Capabilities}.
Import Specialist.

(** What [get_persona_context] prints and returns; the script goes on
    whatever the [flashback] command did. *)
Definition persona_prints (self : SpecialistAgent) : list event :=
  match flashback_persona (flashbacker_persona self) with
  | Exited returncode _ =>
      if Z.eqb returncode 0 then []
      else [Print (MsgPersonaUnavailable (flashbacker_persona self))]
  | SpawnFailed error_class msg =>
      [Print (MsgPersonaFailed (Exn (OtherException error_class) msg))]
  end.

Lemma get_persona_context_returns self w :
  exists text,
    get_persona_context self w
    = (Ok text, World (files w) (faults w) (trace w ++ persona_prints self)).
Proof.
  unfold get_persona_context, persona_prints, try_except, bind, subprocess_run.
  destruct w as [fs fl tr].
  destruct (flashback_persona (flashbacker_persona self)) as [rc out | cls msg]; simpl.
  - destruct (Z.eqb rc 0); simpl; rewrite ?app_nil_r; eauto.
  - eauto.
Qed.

(** The record as the [try] leaves it. *)
Definition completed_result (self : SpecialistAgent) (echoed : json) (output : string)
  : list (string * json) :=
  [ ("agent_id", JStr (agent_id self));
    ("agent_role", JStr (agent_role self));
    ("task", echoed);
    ("status", JStr "completed");
    ("output", JStr output);
    ("errors", JList []) ].

(** The record as the [except] leaves it. *)
Definition error_result (self : SpecialistAgent) (echoed : json) (e : exn)
  : list (string * json) :=
  [ ("agent_id", JStr (agent_id self));
    ("agent_role", JStr (agent_role self));
    ("task", echoed);
    ("status", JStr "error");
    ("output", JNull);
    ("errors", JList [JStr (exn_str e)]) ].

(** The value [execute_task] returns for a task with a ['task'] entry,
    and what it prints on the way. *)
Definition task_outcome (self : SpecialistAgent) (task echoed : json) : outcome json :=
  match specialist_output self task with
  | Ok output => Ok (JDict (completed_result self echoed output))
  | Raise e =>
      if is_Exception e then Ok (JDict (error_result self echoed e)) else Raise e
  end.

Definition task_prints (self : SpecialistAgent) (task echoed : json) : list event :=
  Print (MsgExecuting (agent_role self) echoed) :: persona_prints self
  ++ match specialist_output self task with
     | Ok _ => []
     | Raise e => if is_Exception e then [Print (MsgError e)] else []
     end.

(** Without a ['task'] entry the very first statement raises: nothing
    is printed, no record is built. *)
Lemma execute_task_without_task self task e w :
  subscript task "task" = Raise e ->
  execute_task self task w = (Raise e, w).
Proof.
  intros Hsub. unfold execute_task, bind, lift. rewrite Hsub. reflexivity.
Qed.

Lemma execute_task_with_task self task echoed w :
  subscript task "task" = Ok echoed ->
  execute_task self task w
  = (task_outcome self task echoed,
     World (files w) (faults w) (trace w ++ task_prints self task echoed)).
Proof.
  intros Hsub. unfold execute_task. rewrite Hsub.
  unfold bind at 1. unfold lift at 1.
  unfold bind at 1. unfold print, emit at 1.
  unfold bind at 1.
  destruct (get_persona_context_returns self
              (World (files w) (faults w)
                 (trace w ++ [Print (MsgExecuting (agent_role self) echoed)])))
    as [text ->].
  simpl files; simpl faults; simpl trace.
  unfold bind at 1. unfold lift at 1.
  unfold task_outcome, task_prints, try_except, bind, lift, ret, print, emit.
  destruct (specialist_output self task) as [output | e]; simpl.
  - rewrite app_nil_r, <- app_assoc. reflexivity.
  - destruct (is_Exception e); simpl.
    + rewrite <- !app_assoc. reflexivity.
    + rewrite app_nil_r, <- app_assoc. reflexivity.
Qed.



End ExecuteTask.

(** ** Computations that cannot leave the loop

    In a calm world a computation is [harmless] when it leaves the world
    calm and raises nothing but subclasses of [Exception]. *)

Definition harmless {A} (m : io A) : Prop :=
  forall w o w', calm w -> m w = (o, w') ->
    calm w' /\ forall e, o = Raise e -> is_Exception e = true.

Section Harmless.

Lemma harmless_ret {A} (a : A) : harmless (ret a).
Proof. intros w o w' Hc [= <- <-]. split; [exact Hc | discriminate]. Qed.

Lemma harmless_bind {A B} (m : io A) (k : A -> io B) :
  harmless m -> (forall a, harmless (k a)) -> harmless (bind m k).
Proof.
  intros Hm Hk w o w' Hc. unfold bind.
  destruct (m w) as [[a | e] w1] eqn:Hmw; destruct (Hm _ _ _ Hc Hmw) as [Hc1 He1].
  - apply Hk. exact Hc1.
  - intros [= <- <-]. split; [exact Hc1 |].
    intros e' [= <-]. apply He1. reflexivity.
Qed.

Lemma harmless_lift {A} (o : outcome A) :
  (forall e, o = Raise e -> is_Exception e = true) -> harmless (lift o).
Proof. intros Ho w o' w' Hc [= <- <-]. split; [exact Hc | exact Ho]. Qed.

Lemma harmless_emit ev : harmless (emit ev).
Proof. intros w o w' Hc [= <- <-]. split; [exact Hc | discriminate]. Qed.

Lemma harmless_syscall : harmless syscall.
Proof.
  intros w o w' Hc Hs. destruct (syscall_calm _ _ _ Hc Hs) as [Hc' Ho].
  split; [exact Hc' |]. intros e ->. unfold is_Exception. rewrite Ho. reflexivity.
Qed.

Lemma harmless_sleep n : harmless (sleep n).
Proof.
  intros w o w' Hc Hs. destruct (sleep_calm w n Hc) as [Heq Hc'].
  rewrite Heq in Hs. injection Hs as <- <-. split; [exact Hc' | discriminate].
Qed.

Lemma harmless_get_files : harmless get_files.
Proof. intros w o w' Hc [= <- <-]. split; [exact Hc | discriminate]. Qed.

Lemma harmless_set_files fs : harmless (set_files fs).
Proof. intros w o w' Hc [= <- <-]. split; [exact Hc | discriminate]. Qed.

Lemma harmless_raise {A} e : is_Exception e = true -> harmless (@raise A e).
Proof. intros He w o w' Hc [= <- <-]. split; [exact Hc |]. intros e' [= <-]. exact He. Qed.

Lemma harmless_path_exists p : harmless (path_exists p).
Proof.
  unfold path_exists. apply harmless_bind; [apply harmless_syscall | intros _].
  apply harmless_bind; [apply harmless_get_files | intros fs]. apply harmless_ret.
Qed.

Lemma harmless_read_text p : harmless (read_text p).
Proof.
  unfold read_text. apply harmless_bind; [apply harmless_syscall | intros _].
  apply harmless_bind; [apply harmless_get_files | intros fs].
  destruct (fs !! p).
  - apply harmless_bind; [apply harmless_emit | intros _]. apply harmless_ret.
  - apply harmless_raise. reflexivity.
Qed.

Lemma harmless_write_text p c : harmless (write_text p c).
Proof.
  unfold write_text. apply harmless_bind; [apply harmless_syscall | intros _].
  apply harmless_bind; [apply harmless_get_files | intros fs].
  apply harmless_bind; [apply harmless_set_files | intros _]. apply harmless_emit.
Qed.

Lemma harmless_unlink p : harmless (unlink p).
Proof.
  unfold unlink. apply harmless_bind; [apply harmless_syscall | intros _].
  apply harmless_bind; [apply harmless_get_files | intros fs].
  destruct (fs !! p).
  - apply harmless_bind; [apply harmless_set_files | intros _]. apply harmless_emit.
  - apply harmless_raise. reflexivity.
Qed.

Lemma harmless_json_loads c : harmless (lift (json_loads c)).
Proof.
  apply harmless_lift. destruct c; simpl; [discriminate |].
  intros e [= <-]. reflexivity.
Qed.

Lemma subscript_raises_exception v key e :
  subscript v key = Raise e -> is_Exception e = true.
Proof.
  destruct v; simpl; try (intros [= <-]; reflexivity).
  destruct (dict_get key entries); [discriminate | intros [= <-]; reflexivity].
Qed.

End Harmless.

(** ** The worker: one turn of the loop *)

Section PollLoop.
Context `{F : Flashback} `{C : Specialist.Capabilities}.
Import Specialist.

(** Loading the task reads; it never writes and never removes. *)
Lemma load_task_frame self w o w' :
  load_task self w = (o, w') ->
  files w' = files w /\
  (exists reads, trace w' = trace w ++ reads /\ written reads = []) /\
  (forall task, o = Ok (Some task) -> files w !! task_file self = Some (Doc task)) /\
  (o = Ok None -> files w !! task_file self = None).
Proof.
  unfold load_task. unfold bind at 1.
  destruct (path_exists (task_file self) w) as [[present | e] w1] eqn:Hex;
    destruct (path_exists_frame _ _ _ _ Hex) as (Hf1 & Ht1 & _ & Hb).
  - specialize (Hb present eq_refl). destruct present.
    + unfold bind at 1.
      destruct (read_text (task_file self) w1) as [[text | e] w2] eqn:Hrd;
        destruct (read_text_frame _ _ _ _ Hrd) as (Hf2 & _ & Hok & Herr).
      * destruct (Hok text eq_refl) as [Hl Ht2].
        unfold bind, lift, ret. destruct text as [v | garbage]; simpl;
          intros [= <- <-]; (split; [congruence |]); (split; [| split]).
        -- exists [Read (task_file self)]. split; [congruence | reflexivity].
        -- intros task [= <-]. congruence.
        -- discriminate.
        -- exists [Read (task_file self)]. split; [congruence | reflexivity].
        -- discriminate.
        -- discriminate.
      * intros [= <- <-]. split; [congruence |]. split; [| split]; try discriminate.
        exists []. rewrite app_nil_r. split; [| reflexivity].
        rewrite (Herr e eq_refl). exact Ht1.
    + intros [= <- <-]. split; [exact Hf1 |]. split; [| split]; try discriminate.
      * exists []. rewrite app_nil_r. split; [exact Ht1 | reflexivity].
      * intros _. symmetry in Hb. apply bool_decide_eq_false in Hb.
        destruct (files w !! task_file self) eqn:Hl; [| reflexivity].
        exfalso. apply Hb. eauto.
  - intros [= <- <-]. split; [exact Hf1 |]. split; [| split]; try discriminate.
    exists []. rewrite app_nil_r. split; [exact Ht1 | reflexivity].
Qed.

(** With no fault pending, loading returns what the task file holds. *)
Lemma load_task_quiet self w task :
  faults w = [] ->
  files w !! task_file self = Some (Doc task) ->
  load_task self w
  = (Ok (Some task), World (files w) [] (trace w ++ [Read (task_file self)])).
Proof.
  intros Hq Hl. destruct w as [fs fl tr]; simpl in *; subst fl.
  unfold load_task, path_exists, read_text, bind, syscall, get_files, ret, lift, emit.
  simpl. rewrite Hl. rewrite bool_decide_eq_true_2 by eauto.
  simpl. rewrite Hl. reflexivity.
Qed.

Lemma load_task_idle self w :
  faults w = [] ->
  files w !! task_file self = None ->
  load_task self w = (Ok None, w).
Proof.
  intros Hq Hl. destruct w as [fs fl tr]; simpl in *; subst fl.
  unfold load_task, path_exists, bind, syscall, get_files, ret.
  simpl. rewrite Hl. rewrite bool_decide_eq_false_2 by (intros [? ?]; discriminate).
  reflexivity.
Qed.

Lemma harmless_load_task self : harmless (load_task self).
Proof.
  unfold load_task. apply harmless_bind; [apply harmless_path_exists | intros present].
  destruct present; [| apply harmless_ret].
  apply harmless_bind; [apply harmless_read_text | intros text].
  apply harmless_bind; [apply harmless_json_loads | intros task]. apply harmless_ret.
Qed.


(** With no fault pending, a task with a ['task'] entry whose
    execution returns or raises an [Exception] is processed to the
    end. *)
Lemma process_task_quiet self task echoed result w :
  faults w = [] ->
  is_Some (files w !! task_file self) ->
  task_file self <> result_file self ->
  subscript task "task" = Ok echoed ->
  task_outcome self task echoed = Ok result ->
  process_task self task w
  = (Ok tt,
     World (delete (task_file self) (<[result_file self := Doc result]> (files w))) []
       (trace w ++ task_prints self task echoed
        ++ [ Wrote (result_file self) (Doc result);
             Print (MsgResultSaved (result_file self));
             Unlinked (task_file self) ])).
Proof.
  intros Hq [c Hl] Hne Hsub Hout. unfold process_task.
  pose proof (execute_task_with_task self _ _ w Hsub) as Hex.
  rewrite Hout, Hq in Hex. rewrite (bind_step _ _ _ _ _ Hex).
  generalize (task_prints self task echoed). intros prints.
  unfold write_text, unlink, print, emit, bind, syscall, get_files, set_files, json_dumps.
  simpl. rewrite lookup_insert_ne by congruence. rewrite Hl.
  simpl. rewrite <- !app_assoc. reflexivity.
Qed.

(** A task without a ['task'] entry stops the processing step before
    anything is written. *)
Lemma process_task_without_task self task e w :
  subscript task "task" = Raise e ->
  process_task self task w = (Raise e, w).
Proof.
  intros Hsub. unfold process_task.
  apply bind_abort. apply execute_task_without_task. exact Hsub.
Qed.

Lemma harmless_execute_task self task :
  (forall e, specialist_output self task = Raise e -> is_Exception e = true) ->
  harmless (execute_task self task).
Proof.
  intros Hcap w o w' Hc.
  destruct (subscript task "task") as [echoed | e] eqn:Hsub.
  - rewrite (execute_task_with_task _ _ _ _ Hsub). intros [= <- <-].
    split; [exact Hc |]. unfold task_outcome.
    destruct (specialist_output self task) as [output | e]; [discriminate |].
    rewrite (Hcap e eq_refl). discriminate.
  - rewrite (execute_task_without_task _ _ _ _ Hsub). intros [= <- <-].
    split; [exact Hc |]. intros e' [= <-].
    eapply subscript_raises_exception. exact Hsub.
Qed.

Lemma harmless_process_task self task :
  (forall e, specialist_output self task = Raise e -> is_Exception e = true) ->
  harmless (process_task self task).
Proof.
  intros Hcap. unfold process_task.
  apply harmless_bind; [apply harmless_execute_task, Hcap | intros result].
  apply harmless_bind; [apply harmless_write_text | intros _].
  apply harmless_bind; [apply harmless_emit | intros _].
  apply harmless_unlink.
Qed.

(** The turn ends in [Next] whenever the body completes or raises an
    [Exception] and the handler's sleep is not interrupted. *)
Lemma poll_step_next self w o w1 :
  iteration self w = (o, w1) ->
  (forall e, o = Raise e -> is_Exception e = true) ->
  calm w1 ->
  exists w', poll_step self w = (Ok Next, w') /\ calm w' /\
    files w' = files w1 /\
    match o with
    | Ok _ => w' = w1
    | Raise e => trace w' = trace w1 ++ [Print (MsgError e); Sleep 5] /\
                 faults w' = tail (faults w1)
    end.
Proof.
  intros Hit Hexc Hc. unfold poll_step. rewrite Hit.
  destruct o as [[] | e].
  - exists w1. auto.
  - specialize (Hexc e eq_refl). unfold is_Exception in Hexc.
    assert (Hh : (run print (MsgError e); run sleep 5; ret Next) w1
                 = (Ok Next, World (files w1) (tail (faults w1))
                               (trace w1 ++ [Print (MsgError e); Sleep 5]))).
    { unfold bind, print, emit, ret.
      destruct (sleep_calm (World (files w1) (faults w1) (trace w1 ++ [Print (MsgError e)])) 5)
        as [Hs _]; [exact Hc |].
      rewrite Hs. simpl. rewrite <- app_assoc. reflexivity. }
    eexists. split.
    + destruct (exn_cls e); try exact Hh. discriminate Hexc.
    + simpl. repeat split; auto.
      unfold calm in *. simpl. destruct (faults w1); [constructor |].
      inversion Hc; assumption.
Qed.

Lemma harmless_iteration_at self w :
  (forall task, files w !! task_file self = Some (Doc task) ->
     forall e, specialist_output self task = Raise e -> is_Exception e = true) ->
  forall o w', calm w -> iteration self w = (o, w') ->
    calm w' /\ forall e, o = Raise e -> is_Exception e = true.
Proof.
  intros Hcap o w' Hc. unfold iteration, bind.
  destruct (load_task self w) as [[loaded | e] w1] eqn:Hld;
    destruct (harmless_load_task self _ _ _ Hc Hld) as [Hc1 He1].
  - destruct loaded as [task |].
    + destruct (load_task_frame _ _ _ _ Hld) as (_ & _ & Hsome & _).
      apply harmless_process_task; [| exact Hc1].
      apply Hcap. apply Hsome. reflexivity.
    + apply harmless_sleep. exact Hc1.
  - intros [= <- <-]. split; [exact Hc1 |]. intros e' [= <-]. apply He1. reflexivity.
Qed.

End PollLoop.

(** ** Concrete runs

    The instances and worlds used by the examples below: the [flashback]
    executable is not installed, the worker runs with the role [qa] and
    the default specialist type [general]. *)

Definition flashback_missing : Flashback :=
  fun _ => SpawnFailed "FileNotFoundError" "[Errno 2] No such file or directory: 'flashback'".

(** Content generators for the examples: each returns a one-line
    report, except that [audit_security] cannot join a [focus_areas] that
    is not a list. *)
Definition sample_capabilities : Specialist.Capabilities :=
  {| Specialist.review_architecture := fun _ => Ok "architecture reviewed";
     Specialist.analyze_database := fun _ => Ok "database analyzed";
     Specialist.translate_rust := fun _ => Ok "translation planned";
     Specialist.setup_infrastructure := fun _ => Ok "infrastructure planned";
     Specialist.create_tests := fun _ => Ok "tests planned";
     Specialist.audit_security := fun context =>
       match subscript context "focus_areas" with
       | Ok (JInt _) => Raise (Exn TypeError "can only join an iterable")
       | _ => Ok "security audited"
       end;
     Specialist.design_api := fun _ => Ok "api designed" |}.

Definition qa_env : gmap string string := {[ "AGENT_ROLE" := "qa" ]}.

Definition qa_worker : Specialist.SpecialistAgent := Specialist.make_agent qa_env.

Definition qa_task : Captain.AgentTask :=
  {| Captain.agent_role := "qa";
     Captain.task_description := "Create integration test suite for database layer";
     Captain.context := JDict [ ("test_path", JStr "crates/db/tests");
                                ("framework", JStr "cargo test");
                                ("coverage_target", JInt 80) ];
     Captain.priority := 6 |}.

Definition qa_payload : json := Captain.task_payload qa_task "".

(** The world in which the captain has delegated [qa_task] and nothing
    else happened. *)
Definition qa_pending : world :=
  World {[ "/tmp/agent_tasks/qa.json" := Doc qa_payload ]} [] [].

(** ** Claiming a task *)





(** ** Every claim yields a result *)

(** The record [execute_task] returns echoes the task and carries a
    terminal status. *)
Lemma task_outcome_record `{C : Specialist.Capabilities}
    (self : Specialist.SpecialistAgent) (task echoed result : json) :
  task_outcome self task echoed = Ok result ->
  exists entries,
    result = JDict entries /\
    dict_get "task" entries = Some echoed /\
    (dict_get "status" entries = Some (JStr "completed") \/
     dict_get "status" entries = Some (JStr "error")).
Proof.
  unfold task_outcome.
  destruct (Specialist.specialist_output self task) as [output | e].
  - intros [= <-]. eexists. split; [reflexivity |]. split; [reflexivity | left; reflexivity].
  - destruct (is_Exception e); [| discriminate].
    intros [= <-]. eexists. split; [reflexivity |]. split; [reflexivity | right; reflexivity].
Qed.

(** A payload as some other writer could leave it in the slot: a mapping
    without a ['task'] entry. *)
Definition untitled_payload : json :=
  JDict [ ("agent", JStr "qa"); ("context", JDict []) ].

Definition qa_untitled : world :=
  World {[ "/tmp/agent_tasks/qa.json" := Doc untitled_payload ]} [] [].





(** ** A result whose write fails *)


Lemma poll_step_completes `{F : Flashback} `{C : Specialist.Capabilities}
    (self : Specialist.SpecialistAgent) (w w' : world) :
  Specialist.iteration self w = (Ok tt, w') ->
  Specialist.poll_step self w = (Ok Specialist.Next, w').
Proof. unfold Specialist.poll_step. intros ->. reflexivity. Qed.









(** ** The captain: one delegation *)

Section Delegation.
Context `{F : Flashback}.
Import Captain.

(** What [get_persona_context] returns and prints on the captain's
    side. *)
Definition persona_text (persona : string) : string :=
  match flashback_persona persona with
  | Exited returncode stdout => if Z.eqb returncode 0 then stdout else ""
  | SpawnFailed _ _ => ""
  end.

Definition captain_persona_prints (persona : string) : list event :=
  match flashback_persona persona with
  | Exited _ _ => []
  | SpawnFailed error_class msg =>
      [Print (MsgPersonaFailed (Exn (OtherException error_class) msg))]
  end.

(** The file a delegation writes and what it writes there. *)
Definition publication (task : AgentTask) : string * content :=
  (task_file (agent_role task),
   Doc (task_payload task (persona_text (agent_role task)))).

Lemma captain_persona_returns persona w :
  get_persona_context persona w
  = (Ok (persona_text persona),
     World (files w) (faults w) (trace w ++ captain_persona_prints persona)).
Proof.
  unfold get_persona_context, persona_text, captain_persona_prints, try_except.
  destruct w as [fs fl tr].
  destruct (flashback_persona persona) as [rc out | cls msg]; simpl.
  - rewrite app_nil_r. reflexivity.
  - reflexivity.
Qed.

Lemma captain_persona_prints_are_prints persona :
  Forall is_print (captain_persona_prints persona).
Proof.
  unfold captain_persona_prints.
  destruct (flashback_persona persona); repeat constructor.
Qed.

(** A delegation that returns has written its payload over whatever the
    slot held; one that raises has written nothing. *)
Lemma delegate_task_frame task w o w' :
  delegate_task task w = (o, w') ->
  match o with
  | Ok _ =>
      files w' = <[task_file (agent_role task) := (publication task).2]> (files w) /\
      written (trace w') = written (trace w) ++ [publication task]
  | Raise _ =>
      files w' = files w /\ written (trace w') = written (trace w)
  end.
Proof.
  unfold delegate_task. unfold bind at 1. unfold print at 1. unfold emit at 1.
  unfold bind at 1. rewrite captain_persona_returns. cbn [files faults trace].
  pose proof (captain_persona_prints_are_prints (agent_role task)) as Hpr.
  apply written_prints in Hpr.
  unfold bind at 1. unfold mkdir_exist_ok.
  destruct (syscall _) as [[[] | e1] w1] eqn:Hs;
    destruct (syscall_frame _ _ _ Hs) as (Hf1 & Ht1 & _); cbn [files trace] in Hf1, Ht1.
  - unfold bind at 1.
    destruct (write_text _ _ w1) as [[[] | e2] w2] eqn:Hw;
      destruct (write_text_frame _ _ _ _ _ Hw) as (_ & Hf2 & Ht2).
    + unfold bind, print, emit, ret. intros [= <- <-]. cbn [files trace]. split.
      * rewrite Hf2, Hf1. reflexivity.
      * rewrite Ht2, Ht1, !written_app, Hpr. simpl. rewrite !app_nil_r. reflexivity.
    + intros [= <- <-]. split; [congruence |].
      rewrite Ht2, Ht1, !written_app, Hpr. simpl. rewrite !app_nil_r. reflexivity.
  - intros [= <- <-]. split; [congruence |].
    rewrite Ht1, !written_app, Hpr. simpl. rewrite !app_nil_r. reflexivity.
Qed.

(** With no fault pending a delegation goes through, for any role. *)
Lemma delegate_task_quiet task w :
  faults w = [] ->
  delegate_task task w
  = (Ok (JDict [ ("status", JStr "delegated");
                 ("task_file", JStr (task_file (agent_role task))) ]),
     World (<[task_file (agent_role task) := (publication task).2]> (files w)) []
       (trace w
        ++ Print (MsgDelegating (agent_role task) (task_description task))
           :: captain_persona_prints (agent_role task)
        ++ [ Wrote (task_file (agent_role task)) (publication task).2;
             Print (MsgDelegated (agent_role task)) ])).
Proof.
  intros Hq. unfold delegate_task. unfold bind at 1. unfold print at 1. unfold emit at 1.
  unfold bind at 1. rewrite captain_persona_returns. cbn [files faults trace].
  rewrite Hq. generalize (captain_persona_prints (agent_role task)). intros prints.
  unfold mkdir_exist_ok, write_text, print, emit, bind, syscall, get_files, set_files,
    json_dumps, ret, publication.
  simpl. rewrite <- !app_assoc. reflexivity.
Qed.

(** *** The loop over the batch *)

Lemma delegate_each_frame tasks w o w' :
  delegate_each tasks w = (o, w') ->
  exists done,
    written (trace w') = written (trace w) ++ map publication (take done tasks) /\
    (o = Ok tt -> done = length tasks).
Proof.
  revert w. induction tasks as [| task rest IH]; intros w.
  - intros [= <- <-]. exists 0%nat. simpl. rewrite app_nil_r. auto.
  - simpl. unfold bind at 1.
    destruct (delegate_task task w) as [[result | e] w1] eqn:Hd;
      pose proof (delegate_task_frame _ _ _ _ Hd) as Hfr; cbn beta iota in Hfr.
    + destruct Hfr as [_ Hwr].
      unfold bind at 1. unfold print at 1. unfold emit at 1.
      unfold bind at 1.
      destruct (sleep 1 _) as [[[] | e] w2] eqn:Hs.
      * destruct (sleep_frame _ _ _ _ Hs) as (_ & _ & Ht2).
        cbn [trace] in Ht2. rewrite written_app in Ht2. simpl in Ht2.
        rewrite app_nil_r in Ht2.
        intros Hrest. destruct (IH _ Hrest) as (done & Hw & Hall).
        exists (S done). split.
        -- rewrite Hw, Ht2, Hwr. simpl. rewrite <- app_assoc. reflexivity.
        -- intros Ho. rewrite (Hall Ho). reflexivity.
      * intros [= <- <-]. exists 1%nat. split; [| discriminate].
        destruct (sleep_frame _ _ _ _ Hs) as (_ & _ & Ht2).
        cbn [trace] in Ht2. rewrite written_app in Ht2. simpl in Ht2.
        rewrite app_nil_r in Ht2.
        rewrite Ht2, Hwr. destruct rest; reflexivity.
    + destruct Hfr as [_ Hwr]. intros [= <- <-]. exists 0%nat.
      split; [| discriminate]. simpl. rewrite app_nil_r. exact Hwr.
Qed.

Lemma delegate_each_quiet tasks w :
  faults w = [] ->
  exists w',
    delegate_each tasks w = (Ok tt, w') /\ faults w' = [] /\
    written (trace w') = written (trace w) ++ map publication tasks.
Proof.
  revert w. induction tasks as [| task rest IH]; intros w Hq.
  - exists w. simpl. rewrite app_nil_r. auto.
  - simpl. rewrite (bind_step _ _ _ _ _ (delegate_task_quiet task w Hq)).
    unfold bind at 1. unfold print at 1. unfold emit at 1. unfold bind at 1.
    unfold sleep at 1. cbn [files faults trace tail].
    match goal with |- context [delegate_each rest ?w1] =>
      destruct (IH w1 eq_refl) as (w' & Hrun & Hq' & Hw) end.
    exists w'. split; [exact Hrun |]. split; [exact Hq' |].
    rewrite Hw. cbn [trace]. rewrite !written_app, written_cons, written_app.
    rewrite (written_prints _ (captain_persona_prints_are_prints (agent_role task))).
    simpl. rewrite !app_nil_r, <- app_assoc. reflexivity.
Qed.


End Delegation.

(** ** The order of a batch *)

Section SortReverse.
Context {A : Type} (key : A -> Z).
Import Captain.

(** Elements in descending order of their keys. *)
Definition descending (a b : A) : Prop := (key b <= key a)%Z.

(** The elements of a list that carry a given key, in their order. *)
Definition with_key (k : Z) (l : list A) : list A :=
  List.filter (fun x => Z.eqb (key x) k) l.

Lemma insert_reverse_perm x l : Permutation (insert_reverse key x l) (x :: l).
Proof.
  induction l as [| y rest IH]; simpl; [reflexivity |].
  destruct (Z.ltb (key x) (key y)); [| reflexivity].
  rewrite IH. apply perm_swap.
Qed.

Lemma sort_reverse_perm l : Permutation (sort_reverse key l) l.
Proof.
  induction l as [| x rest IH]; simpl; [reflexivity |].
  rewrite insert_reverse_perm. constructor. exact IH.
Qed.

Lemma insert_reverse_sorted x l :
  StronglySorted descending l -> StronglySorted descending (insert_reverse key x l).
Proof.
  induction 1 as [| y rest Hsorted IH Hall]; simpl.
  - repeat constructor.
  - destruct (Z.ltb_spec (key x) (key y)) as [Hlt | Hge].
    + constructor; [exact IH |].
      apply (Permutation_Forall (Permutation_sym (insert_reverse_perm x rest))).
      constructor; [unfold descending; lia | exact Hall].
    + constructor; [constructor; assumption |].
      constructor; [exact Hge |].
      eapply Forall_impl; [exact Hall |]. unfold descending. intros z Hz. lia.
Qed.

Lemma sort_reverse_sorted l : StronglySorted descending (sort_reverse key l).
Proof.
  induction l as [| x rest IH]; simpl; [constructor |].
  apply insert_reverse_sorted. exact IH.
Qed.

Lemma insert_reverse_stable k x l :
  with_key k (insert_reverse key x l) = with_key k (x :: l).
Proof.
  unfold with_key. induction l as [| y rest IH]; simpl; [reflexivity |].
  destruct (Z.ltb_spec (key x) (key y)) as [Hlt | Hge]; [| reflexivity].
  simpl. rewrite IH. simpl.
  destruct (Z.eqb_spec (key x) k) as [Hx | Hx]; [| reflexivity].
  destruct (Z.eqb_spec (key y) k) as [Hy | Hy]; [lia | reflexivity].
Qed.

(** The sort is stable: the elements of any one key come out in the
    order in which they went in. *)
Lemma sort_reverse_stable k l : with_key k (sort_reverse key l) = with_key k l.
Proof.
  induction l as [| x rest IH]; simpl; [reflexivity |].
  rewrite insert_reverse_stable. unfold with_key in *. simpl. rewrite IH. reflexivity.
Qed.

End SortReverse.

(** ** A delegation whose write fails *)







(** ** Priority order *)

(** A task for the role [qa] with a given description and priority. *)
Definition prioritized (description : string) (p : Z) : Captain.AgentTask :=
  {| Captain.agent_role := "qa";
     Captain.task_description := description;
     Captain.context := JDict [];
     Captain.priority := p |}.

(** C5: the captain publishes a batch in descending order of priority,
    tasks of equal priority in the order of the batch.  The sorted batch
    is a permutation of the batch, in descending order, and stable; what
    gets written is always a prefix of it, and the whole of it when no
    call fails.  Four tasks of priorities 3, 9, 1, 9 come out as second,
    fourth, first, third. *)
Theorem C5_published_in_priority_order `{F : Flashback}
    (tasks : list Captain.AgentTask) (w : world) :
  let sorted := Captain.sort_reverse Captain.priority tasks in
  Permutation sorted tasks /\
  StronglySorted (descending Captain.priority) sorted /\
  (forall p, with_key Captain.priority p sorted = with_key Captain.priority p tasks) /\
  (forall o w',
     Captain.delegate_in_priority_order tasks w = (o, w') ->
     exists done,
       written (trace w') = written (trace w) ++ map publication (take done sorted)) /\
  (faults w = [] ->
   exists w',
     Captain.delegate_in_priority_order tasks w = (Ok tt, w') /\
     written (trace w') = written (trace w) ++ map publication sorted) /\
  (forall t1 t2 t3 t4,
     Captain.priority t1 = 3 -> Captain.priority t2 = 9 ->
     Captain.priority t3 = 1 -> Captain.priority t4 = 9 ->
     Captain.sort_reverse Captain.priority [t1; t2; t3; t4] = [t2; t4; t1; t3]).
Proof.
  intros sorted. split; [apply sort_reverse_perm |].
  split; [apply sort_reverse_sorted |].
  split; [intros p; apply sort_reverse_stable |].
  split; [| split].
  - intros o w'. unfold Captain.delegate_in_priority_order. fold sorted. unfold bind at 1.
    destruct (Captain.delegate_each sorted w) as [[[] | e] w1] eqn:Hrun;
      destruct (delegate_each_frame _ _ _ _ Hrun) as (done & Hw & _).
    + unfold bind, print, emit. intros [= <- <-]. exists done. cbn [trace].
      rewrite !written_app. simpl. rewrite !app_nil_r. exact Hw.
    + intros [= <- <-]. exists done. exact Hw.
  - intros Hq. destruct (delegate_each_quiet sorted w Hq) as (w1 & Hrun & _ & Hw).
    eexists. unfold Captain.delegate_in_priority_order. fold sorted.
    rewrite (bind_step _ _ _ _ _ Hrun). unfold bind, print, emit. split; [reflexivity |].
    cbn [trace]. rewrite !written_app. simpl. rewrite !app_nil_r. exact Hw.
  - intros t1 t2 t3 t4 H1 H2 H3 H4.
    do 3 (simpl; rewrite ?H1, ?H2, ?H3, ?H4). reflexivity.
Qed.

Lemma C5_published_in_priority_order_witness :
  (exists w',
     @Captain.delegate_in_priority_order flashback_missing Captain.migration_tasks (World ∅ [] [])
     = (Ok tt, w') /\
     written (trace w')
     = written [] ++ map (@publication flashback_missing)
                       (Captain.sort_reverse Captain.priority Captain.migration_tasks)) /\
  Captain.sort_reverse Captain.priority
    [ prioritized "first" 3; prioritized "second" 9;
      prioritized "third" 1; prioritized "fourth" 9 ]
  = [ prioritized "second" 9; prioritized "fourth" 9;
      prioritized "first" 3; prioritized "third" 1 ].
Proof.
  destruct (@C5_published_in_priority_order flashback_missing Captain.migration_tasks
              (World ∅ [] [])) as (_ & _ & _ & _ & Hall & Hfour).
  split.
  - apply Hall. reflexivity.
  - apply Hfour; reflexivity.
Defined.

(** ** Overwriting an unclaimed task *)



(** ** Roles nobody knows *)







(** ** The loop goes on *)

Section LoopGoesOn.
Context `{F : Flashback} `{C : Specialist.Capabilities}.
Import Specialist.

(** One turn in a calm world, when executing the task in the slot (if
    any) returns or raises an [Exception]. *)
Lemma poll_step_goes_on self w :
  calm w ->
  (forall task, files w !! task_file self = Some (Doc task) ->
     forall e, specialist_output self task = Raise e -> is_Exception e = true) ->
  exists w', poll_step self w = (Ok Next, w') /\ calm w'.
Proof.
  intros Hc Hcap.
  destruct (iteration self w) as [o w1] eqn:Hit.
  destruct (harmless_iteration_at self w Hcap o w1 Hc Hit) as [Hc1 He].
  destruct (poll_step_next self w o w1 Hit He Hc1) as (w' & Hstep & Hc' & _).
  exists w'. split; assumption.
Qed.

(** The loop is never left while no interrupt arrives and no content
    generator raises anything but an [Exception]. *)
Lemma poll_loop_goes_on self :
  (forall task e, specialist_output self task = Raise e -> is_Exception e = true) ->
  forall turns w, calm w ->
    exists w', poll_loop self turns w = (Ok Next, w') /\ calm w'.
Proof.
  intros Hcap turns. induction turns as [| turns IH]; intros w Hc.
  - exists w. split; [reflexivity | exact Hc].
  - destruct (poll_step_goes_on self w Hc) as (w1 & Hstep & Hc1).
    { intros task _. apply Hcap. }
    destruct (IH w1 Hc1) as (w' & Hloop & Hc').
    exists w'. split; [| exact Hc']. simpl.
    rewrite (bind_step _ _ _ _ _ Hstep). exact Hloop.
Qed.

(** *** A task file without a ['task'] entry *)

Lemma poll_step_untitled_frame self entries w o w' :
  files w !! task_file self = Some (Doc (JDict entries)) ->
  dict_get "task" entries = None ->
  poll_step self w = (o, w') ->
  files w' = files w /\ written (trace w') = written (trace w).
Proof.
  intros Hl Hkey. unfold poll_step.
  assert (Hit : forall o1 w1, iteration self w = (o1, w1) ->
                  files w1 = files w /\ written (trace w1) = written (trace w)).
  { intros o1 w1. unfold iteration, bind.
    destruct (load_task self w) as [[[task |] | e] w0] eqn:Hld;
      destruct (load_task_frame _ _ _ _ Hld) as (Hf & (reads & Ht & Hr) & Hsome & Hnone).
    - specialize (Hsome task eq_refl). rewrite Hl in Hsome. injection Hsome as <-.
      rewrite (process_task_without_task self (JDict entries) (key_error "task")).
      + intros [= <- <-]. split; [exact Hf |].
        rewrite Ht, written_app, Hr, app_nil_r. reflexivity.
      + simpl. rewrite Hkey. reflexivity.
    - intros Hs. destruct (sleep_frame _ _ _ _ Hs) as (Hf1 & _ & Ht1).
      split; [congruence |]. rewrite Ht1, Ht, written_app, Hr, app_nil_r. reflexivity.
    - intros [= <- <-]. split; [exact Hf |].
      rewrite Ht, written_app, Hr, app_nil_r. reflexivity. }
  destruct (iteration self w) as [[[] | e] w1];
    destruct (Hit _ _ eq_refl) as [Hf Ht].
  - intros [= <- <-]. split; assumption.
  - assert (Hhandler : forall o2 w2,
              (run print (MsgError e); run sleep 5; ret Next) w1 = (o2, w2) ->
              files w2 = files w /\ written (trace w2) = written (trace w)).
    { intros o2 w2. unfold bind at 1. unfold print at 1. unfold emit at 1.
      unfold bind.
      destruct (sleep 5 _) as [[[] | e2] w3] eqn:Hs;
        destruct (sleep_frame _ _ _ _ Hs) as (Hf3 & _ & Ht3);
        cbn [files trace] in Hf3, Ht3; rewrite written_app in Ht3; simpl in Ht3;
        rewrite app_nil_r in Ht3; intros [= <- <-]; split; congruence. }
    destruct (exn_cls e); try apply Hhandler.
    unfold bind, print, emit, ret. intros [= <- <-]. cbn [files trace].
    split; [exact Hf |]. rewrite written_app. simpl. rewrite app_nil_r. exact Ht.
Qed.

Lemma poll_loop_untitled_frame self entries turns w o w' :
  files w !! task_file self = Some (Doc (JDict entries)) ->
  dict_get "task" entries = None ->
  poll_loop self turns w = (o, w') ->
  files w' = files w /\ written (trace w') = written (trace w).
Proof.
  intros Hl Hkey. revert w Hl. induction turns as [| turns IH]; intros w Hl.
  - intros [= <- <-]. split; reflexivity.
  - simpl. unfold bind.
    destruct (poll_step self w) as [[ctl | e] w1] eqn:Hstep;
      destruct (poll_step_untitled_frame _ _ _ _ _ Hl Hkey Hstep) as [Hf Ht].
    + destruct ctl.
      * intros Hloop.
        assert (Hl1 : files w1 !! task_file self = Some (Doc (JDict entries)))
          by (rewrite Hf; exact Hl).
        destruct (IH w1 Hl1 Hloop) as [Hf' Ht'].
        split; congruence.
      * intros [= <- <-]. split; assumption.
    + intros [= <- <-]. split; assumption.
Qed.

(** What the worker does, turn after turn, on such a file: read it,
    print the [KeyError], sleep. *)
Definition untitled_turn (self : SpecialistAgent) : list event :=
  [ Read (task_file self); Print (MsgError (key_error "task")); Sleep 5 ].

Lemma poll_loop_untitled_quiet self entries turns w :
  files w !! task_file self = Some (Doc (JDict entries)) ->
  dict_get "task" entries = None ->
  faults w = [] ->
  poll_loop self turns w
  = (Ok Next, World (files w) [] (trace w ++ concat (replicate turns (untitled_turn self)))).
Proof.
  intros Hl Hkey. revert w Hl. induction turns as [| turns IH]; intros w Hl Hq.
  - simpl. rewrite app_nil_r. destruct w as [fs fl tr]. simpl in Hq. subst fl. reflexivity.
  - assert (Hstep : poll_step self w
                    = (Ok Next, World (files w) [] (trace w ++ untitled_turn self))).
    { unfold poll_step, iteration.
      rewrite (bind_step _ _ _ _ _ (load_task_quiet self w _ Hq Hl)).
      rewrite (process_task_without_task self (JDict entries) (key_error "task"))
        by (simpl; rewrite Hkey; reflexivity).
      unfold bind, print, emit, sleep, ret. simpl.
      rewrite <- !app_assoc. reflexivity. }
    simpl. rewrite (bind_step _ _ _ _ _ Hstep).
    rewrite IH by (try reflexivity; exact Hl).
    cbn [files trace]. rewrite <- app_assoc. reflexivity.
Qed.

End LoopGoesOn.

(** ** Failures of the execution *)


(** The worker [security] with the specialist type [security-audit],
    and a task whose [focus_areas] is a number. *)
Definition security_env : gmap string string :=
  {[ "AGENT_ROLE" := "security"; "SPECIALIST_TYPE" := "security-audit" ]}.

Definition unjoinable_payload : json :=
  JDict [ ("agent", JStr "security");
          ("task", JStr "Audit password hashing and authentication patterns");
          ("context", JDict [ ("focus_areas", JInt 3); ("target", JStr "crates/customer") ]);
          ("persona_context", JStr "");
          ("priority", JInt 8) ].

Definition security_pending : world :=
  World {[ "/tmp/agent_tasks/security.json" := Doc unjoinable_payload ]}
        [Fine; Fine; Refused "[Errno 13] Permission denied"] [].


(** ** A task file without a task *)

(** C9: when the task file holds a mapping without a ['task'] entry,
    [execute_task] raises [KeyError('task')] at its first statement, before
    any record is built.  However many turns the loop takes and whatever
    faults arrive, no file changes (the task file stays, no result
    appears) and nothing is written; with no fault, every turn reads the
    same file, prints the same error and sleeps, and the loop is still
    running. *)
Theorem C9_untitled_task_is_never_answered
    `{F : Flashback} `{C : Specialist.Capabilities}
    (env : gmap string string) (w : world) (entries : list (string * json)) (turns : nat) :
  let self := Specialist.make_agent env in
  files w !! Specialist.task_file self = Some (Doc (JDict entries)) ->
  dict_get "task" entries = None ->
  (forall w1,
     Specialist.execute_task self (JDict entries) w1 = (Raise (key_error "task"), w1)) /\
  (forall o w',
     Specialist.poll_loop self turns w = (o, w') ->
     files w' = files w /\
     files w' !! Specialist.task_file self = Some (Doc (JDict entries)) /\
     files w' !! Specialist.result_file self = files w !! Specialist.result_file self /\
     written (trace w') = written (trace w)) /\
  (faults w = [] ->
   Specialist.poll_loop self turns w
   = (Ok Specialist.Next,
      World (files w) [] (trace w ++ concat (replicate turns (untitled_turn self))))).
Proof.
  intros self Hl Hkey. split; [| split].
  - intros w1. apply execute_task_without_task. simpl. rewrite Hkey. reflexivity.
  - intros o w' Hloop.
    destruct (poll_loop_untitled_frame self entries turns w o w' Hl Hkey Hloop) as [Hf Ht].
    rewrite Hf. auto.
  - intros Hq. apply (poll_loop_untitled_quiet self entries); assumption.
Qed.

Lemma C9_untitled_task_is_never_answered_witness :
  (forall w1,
     @Specialist.execute_task flashback_missing sample_capabilities
       qa_worker untitled_payload w1 = (Raise (key_error "task"), w1)) /\
  (forall o w',
     @Specialist.poll_loop flashback_missing sample_capabilities qa_worker 4 qa_untitled
     = (o, w') ->
     files w' = files qa_untitled /\
     files w' !! Specialist.task_file qa_worker
     = Some (Doc (JDict [ ("agent", JStr "qa"); ("context", JDict []) ])) /\
     files w' !! Specialist.result_file qa_worker
     = files qa_untitled !! Specialist.result_file qa_worker /\
     written (trace w') = written (trace qa_untitled)) /\
  @Specialist.poll_loop flashback_missing sample_capabilities qa_worker 4 qa_untitled
  = (Ok Specialist.Next,
     World (files qa_untitled) []
       (trace qa_untitled ++ concat (replicate 4 (untitled_turn qa_worker)))).
Proof.
  destruct (@C9_untitled_task_is_never_answered flashback_missing sample_capabilities
              qa_env qa_untitled [ ("agent", JStr "qa"); ("context", JDict []) ] 4%nat)
    as (Hraise & Hframe & Hquiet).
  - vm_compute. reflexivity.
  - reflexivity.
  - split; [exact Hraise |]. split; [exact Hframe |]. apply Hquiet. reflexivity.
Defined.

(** ** Unknown specialist types *)





(** * Further properties of the worker *)

Section WorkerTurns.
Context `{F : Flashback} `{C : Specialist.Capabilities}.
Import Specialist.





End WorkerTurns.

(** ** Turns without a task *)

(** X1: while there is no task file and no fault, the worker does
    nothing but sleep five seconds per turn: no file is created, nothing
    is printed, and the loop is still running. *)
Theorem X1_idle_worker_only_sleeps
    `{F : Flashback} `{C : Specialist.Capabilities}
    (self : Specialist.SpecialistAgent) (turns : nat) (w : world) :
  faults w = [] ->
  files w !! Specialist.task_file self = None ->
  Specialist.poll_loop self turns w
  = (Ok Specialist.Next, World (files w) [] (trace w ++ replicate turns (Sleep 5))).
Proof.
  revert w. induction turns as [| turns IH]; intros w Hq Hl.
  - simpl. rewrite app_nil_r. destruct w as [fs fl tr]. simpl in Hq. subst fl. reflexivity.
  - assert (Hstep : Specialist.poll_step self w
                    = (Ok Specialist.Next, World (files w) [] (trace w ++ [Sleep 5]))).
    { apply poll_step_completes. unfold Specialist.iteration.
      rewrite (bind_step _ _ _ _ _ (load_task_idle self w Hq Hl)).
      unfold sleep. rewrite Hq. reflexivity. }
    simpl. rewrite (bind_step _ _ _ _ _ Hstep).
    rewrite IH by (try reflexivity; exact Hl).
    cbn [files trace]. rewrite <- app_assoc. reflexivity.
Qed.

Lemma X1_idle_worker_only_sleeps_witness :
  @Specialist.poll_loop flashback_missing sample_capabilities qa_worker 3 (World ∅ [] [])
  = (Ok Specialist.Next, World ∅ [] [Sleep 5; Sleep 5; Sleep 5]).
Proof.
  apply (@X1_idle_worker_only_sleeps flashback_missing sample_capabilities
           qa_worker 3%nat (World ∅ [] [])).
  - reflexivity.
  - reflexivity.
Defined.

(** ** Task files the worker cannot answer *)






(** ** Interrupts *)

(** X3: the loop is left through [break] only when a
    [KeyboardInterrupt] is raised inside the [try]; the worker then prints
    its shutdown line.  An interrupt that arrives while the worker tests
    for its task file, or during the idle sleep, ends the loop this way,
    with every file as it was and no further turn taken. *)
Theorem X3_interrupt_in_try_ends_loop
    `{F : Flashback} `{C : Specialist.Capabilities}
    (self : Specialist.SpecialistAgent) (w : world) :
  let goodbye := Print (MsgShuttingDown (Specialist.agent_id self)) in
  (forall w',
     Specialist.poll_step self w = (Ok Specialist.Break, w') ->
     exists e w1,
       Specialist.iteration self w = (Raise e, w1) /\
       exn_cls e = KeyboardInterrupt /\
       w' = World (files w1) (faults w1) (trace w1 ++ [goodbye])) /\
  (forall rest turns,
     faults w = Interrupted :: rest ->
     Specialist.poll_loop self (S turns) w
     = (Ok Specialist.Break, World (files w) rest (trace w ++ [goodbye]))) /\
  (forall rest turns,
     faults w = Fine :: Interrupted :: rest ->
     files w !! Specialist.task_file self = None ->
     Specialist.poll_loop self (S turns) w
     = (Ok Specialist.Break, World (files w) rest (trace w ++ [goodbye]))).
Proof.
  intros goodbye. split; [| split].
  - intros w'. unfold Specialist.poll_step.
    destruct (Specialist.iteration self w) as [[[] | e] w1]; [discriminate |].
    destruct (exn_cls e) eqn:Hcls;
      try (unfold bind at 1; unfold print at 1; unfold emit at 1; unfold bind;
           destruct (sleep 5 _) as [[[] | e2] w3]; discriminate).
    unfold bind, print, emit, ret. intros [= <-]. exists e, w1. auto.
  - intros rest turns Hq.
    assert (Hit : Specialist.iteration self w
                  = (Raise (Exn KeyboardInterrupt ""), World (files w) rest (trace w))).
    { unfold Specialist.iteration, Specialist.load_task, path_exists.
      apply bind_abort. apply bind_abort. apply bind_abort.
      unfold syscall. rewrite Hq. reflexivity. }
    simpl. unfold bind at 1. unfold Specialist.poll_step. rewrite Hit. reflexivity.
  - intros rest turns Hq Hl.
    assert (Hit : Specialist.iteration self w
                  = (Raise (Exn KeyboardInterrupt ""), World (files w) rest (trace w))).
    { destruct w as [fs fl tr]; simpl in *; subst fl.
      unfold Specialist.iteration, Specialist.load_task, path_exists, bind, syscall,
        get_files, ret, sleep.
      simpl. rewrite Hl. rewrite bool_decide_eq_false_2 by (intros [? ?]; discriminate).
      reflexivity. }
    simpl. unfold bind at 1. unfold Specialist.poll_step. rewrite Hit. reflexivity.
Qed.

Lemma X3_interrupt_in_try_ends_loop_witness :
  @Specialist.poll_loop flashback_missing sample_capabilities qa_worker 3
    (World (files qa_pending) [Interrupted] [])
  = (Ok Specialist.Break,
     World (files qa_pending) [] [Print (MsgShuttingDown "qa-001")]) /\
  @Specialist.poll_loop flashback_missing sample_capabilities qa_worker 3
    (World ∅ [Fine; Interrupted] [])
  = (Ok Specialist.Break, World ∅ [] [Print (MsgShuttingDown "qa-001")]).
Proof.
  split.
  - destruct (@X3_interrupt_in_try_ends_loop flashback_missing sample_capabilities
                qa_worker (World (files qa_pending) [Interrupted] [])) as (_ & Hnow & _).
    apply (Hnow [] 2%nat). reflexivity.
  - destruct (@X3_interrupt_in_try_ends_loop flashback_missing sample_capabilities
                qa_worker (World ∅ [Fine; Interrupted] [])) as (_ & _ & Hidle).
    apply (Hidle [] 2%nat); reflexivity.
Defined.

(** X4: an interrupt that arrives during the sleep of the
    [except Exception] handler is not caught by anything: after the body
    of the [try] has raised an [Exception] and the error has been printed,
    the [KeyboardInterrupt] leaves the loop as an exception, without the
    shutdown line. *)
Theorem X4_interrupt_in_backoff_escapes
    `{F : Flashback} `{C : Specialist.Capabilities}
    (self : Specialist.SpecialistAgent) (w w1 : world) (e : exn)
    (rest : list fault) (turns : nat) :
  Specialist.iteration self w = (Raise e, w1) ->
  is_Exception e = true ->
  faults w1 = Interrupted :: rest ->
  Specialist.poll_loop self (S turns) w
  = (Raise (Exn KeyboardInterrupt ""),
     World (files w1) rest (trace w1 ++ [Print (MsgError e)])).
Proof.
  intros Hit He Hq. simpl. apply bind_abort.
  unfold Specialist.poll_step. rewrite Hit. unfold is_Exception in He.
  destruct (exn_cls e); try discriminate He;
    unfold bind, print, emit, sleep; simpl; rewrite Hq; reflexivity.
Qed.

Lemma X4_interrupt_in_backoff_escapes_witness :
  @Specialist.poll_loop flashback_missing sample_capabilities qa_worker 2
    (World (files qa_untitled) [Fine; Fine; Interrupted] [])
  = (Raise (Exn KeyboardInterrupt ""),
     World (files qa_untitled) []
       [Read "/tmp/agent_tasks/qa.json"; Print (MsgError (key_error "task"))]).
Proof.
  apply (@X4_interrupt_in_backoff_escapes flashback_missing sample_capabilities
           qa_worker (World (files qa_untitled) [Fine; Fine; Interrupted] [])
           (World (files qa_untitled) [Interrupted] [Read "/tmp/agent_tasks/qa.json"])
           (key_error "task") [] 1%nat).
  - vm_compute. reflexivity.
  - reflexivity.
  - reflexivity.
Defined.

(** ** Tasks without a context *)



(** ** What a turn does to the files *)






(** X8: the persona context is fetched and never used.  What
    [execute_task] returns or raises is the same whatever the [flashback]
    command prints or however it fails, and whatever the files and the
    pending faults are. *)
Theorem X8_result_ignores_persona
    (F1 F2 : Flashback) `{C : Specialist.Capabilities}
    (self : Specialist.SpecialistAgent) (task : json) (w1 w2 : world) :
  fst (@Specialist.execute_task F1 C self task w1)
  = fst (@Specialist.execute_task F2 C self task w2).
Proof.
  destruct (subscript task "task") as [echoed | e] eqn:Hsub.
  - rewrite !(execute_task_with_task _ _ _ _ Hsub). reflexivity.
  - rewrite !(execute_task_without_task _ _ _ _ Hsub). reflexivity.
Qed.

(** * Further properties of the captain *)




Section Batches.
Context `{F : Flashback}.
Import Captain.





(** A list in descending order of keys is left as it is by the sort. *)
Lemma sort_reverse_sorted_id {A} (key : A -> Z) (l : list A) :
  StronglySorted (descending key) l -> sort_reverse key l = l.
Proof.
  induction 1 as [| x rest Hsorted IH Hall]; [reflexivity |].
  simpl. rewrite IH. destruct rest as [| y rest']; [reflexivity |].
  simpl. inversion Hall as [| ? ? Hxy _]. unfold descending in Hxy.
  destruct (Z.ltb_spec (key x) (key y)); [lia | reflexivity].
Qed.

End Batches.

(** ** From the captain to the worker and back *)

(** The record [execute_task] returns names the worker that made it. *)
Lemma task_outcome_names_worker `{C : Specialist.Capabilities}
    (self : Specialist.SpecialistAgent) (task echoed result : json) :
  task_outcome self task echoed = Ok result ->
  exists entries,
    result = JDict entries /\
    dict_get "agent_id" entries = Some (JStr (Specialist.agent_id self)) /\
    dict_get "agent_role" entries = Some (JStr (Specialist.agent_role self)).
Proof.
  unfold task_outcome.
  destruct (Specialist.specialist_output self task) as [output | e].
  - intros [= <-]. eexists. repeat split; reflexivity.
  - destruct (is_Exception e); [| discriminate].
    intros [= <-]. eexists. repeat split; reflexivity.
Qed.

(** X9: one delegation and one turn, with no call failing.  When the
    captain delegates a task to a role that is not an absolute path and
    the worker of that role takes its next turn, the turn ends in [Next],
    the task file is gone, and the result slot holds a record with the
    task's description as its [task], the role as its [agent_role] and a
    status of [completed] or [error]. *)
Theorem X9_delegated_task_is_answered
    `{F : Flashback} `{C : Specialist.Capabilities}
    (env : gmap string string) (task : Captain.AgentTask) (w : world) :
  let self := Specialist.make_agent env in
  let payload := Captain.task_payload task (persona_text (Captain.agent_role task)) in
  Specialist.getenv env "AGENT_ROLE" "unknown" = Captain.agent_role task ->
  (forall rest, Captain.agent_role task <> String "/" rest) ->
  faults w = [] ->
  (forall e, Specialist.specialist_output self payload = Raise e -> is_Exception e = true) ->
  exists delegated w1 w2 entries,
    Captain.delegate_task task w = (Ok delegated, w1) /\
    Specialist.poll_step self w1 = (Ok Specialist.Next, w2) /\
    files w2 !! Captain.task_file (Captain.agent_role task) = None /\
    files w2 !! Specialist.result_file self = Some (Doc (JDict entries)) /\
    dict_get "task" entries = Some (JStr (Captain.task_description task)) /\
    dict_get "agent_role" entries = Some (JStr (Captain.agent_role task)) /\
    (dict_get "status" entries = Some (JStr "completed") \/
     dict_get "status" entries = Some (JStr "error")).
Proof.
  intros self payload Hrole Hrel Hq Hcap.
  assert (Hslot : Specialist.task_file self = Captain.task_file (Captain.agent_role task)).
  { unfold self. rewrite worker_watches_captain_slot; rewrite Hrole; auto. }
  pose proof (task_file_not_result_file env) as Hne. fold self in Hne.
  pose proof (delegate_task_quiet task w Hq) as Hd.
  match type of Hd with _ = (_, ?wd) => set (w1 := wd) in * end.
  assert (Hl : files w1 !! Specialist.task_file self = Some (Doc payload)).
  { rewrite Hslot. unfold w1. cbn [files]. apply lookup_insert_eq. }
  assert (Hout : exists result,
             task_outcome self payload (JStr (Captain.task_description task)) = Ok result).
  { unfold task_outcome.
    destruct (Specialist.specialist_output self payload) as [output | e] eqn:Hso; [eauto |].
    rewrite (Hcap e eq_refl). eauto. }
  destruct Hout as [result Hout].
  pose proof (load_task_quiet self w1 payload eq_refl Hl) as Hld.
  match type of Hld with _ = (_, ?wd) => set (wl := wd) in * end.
  pose proof (process_task_quiet self payload (JStr (Captain.task_description task))
                result wl eq_refl) as Hp.
  destruct (task_outcome_record _ _ _ _ Hout) as (entries & -> & Hecho & Hstatus).
  destruct (task_outcome_names_worker _ _ _ _ Hout) as (entries' & Heq & _ & Hwho).
  injection Heq as <-.
  do 4 eexists. split; [exact Hd |]. split.
  - apply poll_step_completes. unfold Specialist.iteration.
    rewrite (bind_step _ _ _ _ _ Hld). apply Hp.
    + exists (Doc payload). exact Hl.
    + exact Hne.
    + reflexivity.
    + exact Hout.
  - cbn [files]. rewrite <- Hslot. split; [apply lookup_delete_eq |]. split.
    + rewrite lookup_delete_ne by exact Hne. apply lookup_insert_eq.
    + split; [exact Hecho |]. split; [| exact Hstatus].
      rewrite Hwho. unfold self. simpl. rewrite Hrole. reflexivity.
Qed.

Lemma X9_delegated_task_is_answered_witness :
  exists delegated w1 w2 entries,
    @Captain.delegate_task flashback_missing qa_task (World ∅ [] []) = (Ok delegated, w1) /\
    @Specialist.poll_step flashback_missing sample_capabilities qa_worker w1
    = (Ok Specialist.Next, w2) /\
    files w2 !! Captain.task_file "qa" = None /\
    files w2 !! Specialist.result_file qa_worker = Some (Doc (JDict entries)) /\
    dict_get "task" entries
    = Some (JStr "Create integration test suite for database layer") /\
    dict_get "agent_role" entries = Some (JStr "qa") /\
    (dict_get "status" entries = Some (JStr "completed") \/
     dict_get "status" entries = Some (JStr "error")).
Proof.
  apply (@X9_delegated_task_is_answered flashback_missing sample_capabilities
           qa_env qa_task (World ∅ [] [])).
  - vm_compute. reflexivity.
  - intros rest. discriminate.
  - reflexivity.
  - intros e He. vm_compute in He. discriminate He.
Defined.

(** ** One slot per role *)





(** X12: a batch that is already in descending order of priority is
    delegated in the order given, and sorting twice is sorting once. *)
Theorem X12_sorted_batch_keeps_its_order (tasks : list Captain.AgentTask) :
  (StronglySorted (descending Captain.priority) tasks ->
   Captain.sort_reverse Captain.priority tasks = tasks) /\
  Captain.sort_reverse Captain.priority (Captain.sort_reverse Captain.priority tasks)
  = Captain.sort_reverse Captain.priority tasks.
Proof.
  split.
  - apply sort_reverse_sorted_id.
  - apply sort_reverse_sorted_id. apply sort_reverse_sorted.
Qed.

Lemma X12_sorted_batch_keeps_its_order_witness :
  Captain.sort_reverse Captain.priority
    [ prioritized "first" 9; prioritized "second" 9; prioritized "third" 3 ]
  = [ prioritized "first" 9; prioritized "second" 9; prioritized "third" 3 ].
Proof.
  destruct (X12_sorted_batch_keeps_its_order
              [ prioritized "first" 9; prioritized "second" 9; prioritized "third" 3 ])
    as [Hkept _].
  apply Hkept. repeat constructor; unfold descending; simpl; lia.
Defined.

(** * The captain's session ([captain.py], [FlashbackerIntegration] and [run]) *)

Module Session.
Import Py.

(** The outcome of [subprocess.run] on [flashback session-start]; the
    text it printed is kept up to JSON equivalence, like the text of a
    file. *)
Inductive session_proc : Type :=
  | SessionExited (returncode : Z) (stdout : content)
  | SessionSpawnFailed (error_class msg : string).

(** The two other commands of the [flashback] executable: what
    [session-start] does, and what [save-session --context] does when fed
    a JSON text on its input. *)
Class FlashbackSession := {
  session_start : session_proc;
  save_session : json -> proc
}.

(** Whether [float(literal)] is zero; Python's parsing of floats decides
    it (the literal [1e-400] is zero). *)
Class PyFloat := float_is_zero : string -> bool.

(** The lines [run] and the two session helpers print, kept symbolic;
    [LineLoaded] stands for the line that shows [len(prev_context)]. *)
Inductive line : Type :=
  | LineStarting (agent_id : string)
  | LineB00tEnabled (value : option string)
  | LineFlashbackerEnabled (value : option string)
  | LineLoadFailed (e : exn)
  | LineLoaded (prev_context : json)
  | LineSaveFailed (e : exn)
  | LineWorkflowComplete
  | LineNext.

(** What a run of the captain acts on: the world of the files, its own
    console, and the JSON texts [flashback save-session] has received. *)
Record session : Type := {
  store : world;
  console : list line;
  save_calls : list json
}.

Definition sio (A : Type) : Type := session -> outcome A * session.

Definition sret {A} (a : A) : sio A := fun s => (Ok a, s).

Definition sraise {A} (e : exn) : sio A := fun s => (Raise e, s).

Definition sbind {A B} (m : sio A) (k : A -> sio B) : sio B :=
  fun s =>
    match m s with
    | (Ok a, s') => k a s'
    | (Raise e, s') => (Raise e, s')
    end.

(** [try: body / except Exception as e: handler(e)]. *)
Definition stry {A} (body : sio A) (handler : exn -> sio A) : sio A :=
  fun s =>
    match body s with
    | (Ok a, s') => (Ok a, s')
    | (Raise e, s') => if is_Exception e then handler e s' else (Raise e, s')
    end.

Definition say (l : line) : sio unit :=
  fun s => (Ok tt, {| store := store s; console := console s ++ [l];
                      save_calls := save_calls s |}).

(** Running a computation of the file world inside a session. *)
Definition in_store {A} (m : io A) : sio A :=
  fun s =>
    let (o, w) := m (store s) in
    (o, {| store := w; console := console s; save_calls := save_calls s |}).

Notation "'sdo' x <- m ; k" := (sbind m (fun x => k))
  (at level 10, x name, m at level 100, k at level 200,
   format "'[v' 'sdo'  x  <-  m ; '/' k ']'").
Notation "'srun' m ; k" := (sbind m (fun _ => k))
  (at level 10, m at level 100, k at level 200,
   format "'[v' 'srun'  m ; '/' k ']'").

(** [subprocess.run([flashback, "save-session", "--context"],
    input=text, ...)]: a command that starts receives the text. *)
Definition run_save_session `{FlashbackSession} (context_data : json) : sio Z :=
  fun s =>
    match save_session context_data with
    | Exited returncode _ =>
        (Ok returncode,
         {| store := store s; console := console s;
            save_calls := save_calls s ++ [context_data] |})
    | SpawnFailed error_class msg => (Raise (Exn (OtherException error_class) msg), s)
    end.

(** [FlashbackerIntegration.save_session_context]. *)
Definition save_session_context `{FlashbackSession} (context_data : json) : sio bool :=
  stry
    (sdo returncode <- run_save_session context_data;
     sret (Z.eqb returncode 0))
    (fun e =>
       srun say (LineSaveFailed e);
       sret false).

(** [subprocess.run([flashback, "session-start"], ...)]. *)
Definition run_session_start `{FlashbackSession} : sio (Z * content) :=
  match session_start with
  | SessionExited returncode stdout => sret (returncode, stdout)
  | SessionSpawnFailed error_class msg => sraise (Exn (OtherException error_class) msg)
  end.

(** [FlashbackerIntegration.load_session_context]. *)
Definition load_session_context `{FlashbackSession} : sio json :=
  stry
    (sdo result <- run_session_start;
     if Z.eqb (fst result) 0 then
       match json_loads (snd result) with
       | Ok loaded => sret loaded
       | Raise e => sraise e
       end
     else sret (JDict []))
    (fun e =>
       srun say (LineLoadFailed e);
       sret (JDict [])).

(** The attributes [CaptainOrchestrator.__init__] sets ([flashbacker] is
    the class instance). *)
Record CaptainOrchestrator : Type := {
  agent_id : string;
  task_queue : list Captain.AgentTask;
  agent_status : gmap string string
}.

(** [CaptainOrchestrator.__init__]. *)
Definition init (env : gmap string string) : CaptainOrchestrator :=
  {| agent_id := Specialist.getenv env "AGENT_ID" "captain-001";
     task_queue := [];
     agent_status := ∅ |}.

(** The truth value of a JSON value in an [if]. *)
Definition truthy `{PyFloat} (v : json) : bool :=
  match v with
  | JNull => false
  | JBool b => b
  | JInt z => negb (Z.eqb z 0)
  | JFloat literal => negb (float_is_zero literal)
  | JStr s => negb (String.eqb s "")
  | JList items => match items with [] => false | _ => true end
  | JDict entries => match entries with [] => false | _ => true end
  end.

(** [len(v)] raises for a value that has no length. *)
Definition check_len (v : json) : outcome unit :=
  match v with
  | JStr _ | JList _ | JDict _ => Ok tt
  | JNull => Raise (Exn TypeError "object of type 'NoneType' has no len()")
  | JBool _ => Raise (Exn TypeError "object of type 'bool' has no len()")
  | JInt _ => Raise (Exn TypeError "object of type 'int' has no len()")
  | JFloat _ => Raise (Exn TypeError "object of type 'float' has no len()")
  end.

(** The dict [session_context] built by [run]. *)
Definition session_context (self : CaptainOrchestrator) : json :=
  JDict [ ("agent_id", JStr (agent_id self));
          ("tasks_delegated", JInt (Z.of_nat (length (task_queue self))));
          ("workflow", JStr "commercerack_migration");
          ("timestamp", JStr "2025-11-17") ].

(** [CaptainOrchestrator.run] (the name [run] is taken by the notation
    of the monad). *)
Definition captain_run `{Flashback} `{FlashbackSession} `{PyFloat}
    (self : CaptainOrchestrator) (env : gmap string string) : sio unit :=
  srun say (LineStarting (agent_id self));
  srun say (LineB00tEnabled (env !! "B00T_ENABLED"));
  srun say (LineFlashbackerEnabled (env !! "FLASHBACKER_ENABLED"));
  sdo prev_context <- load_session_context;
  srun (if truthy prev_context then
          match check_len prev_context with
          | Ok _ => say (LineLoaded prev_context)
          | Raise e => sraise e
          end
        else sret tt);
  srun in_store Captain.process_commercerack_migration;
  sdo saved <- save_session_context (session_context self);
  srun say LineWorkflowComplete;
  say LineNext.


End Session.

(** ** Properties of the captain's session *)

Section SessionFacts.
Context `{F : Flashback} `{FS : Session.FlashbackSession} `{PF : Session.PyFloat}.
Import Session.

(** What [load_session_context] returns: the parsed output of a
    [session-start] that exited with 0 and printed JSON, an empty dict in
    every other case. *)
Definition loaded_context : json :=
  match session_start with
  | SessionExited returncode (Doc loaded) =>
      if Z.eqb returncode 0 then loaded else JDict []
  | _ => JDict []
  end.

Lemma load_session_context_returns s :
  exists said,
    load_session_context s
    = (Ok loaded_context,
       {| store := store s; console := console s ++ said; save_calls := save_calls s |}).
Proof.
  unfold load_session_context, loaded_context, stry, sbind, run_session_start.
  destruct s as [w con calls]. simpl.
  destruct session_start as [rc [loaded | text] | cls msg]; simpl.
  - exists []. rewrite app_nil_r. destruct (Z.eqb rc 0); reflexivity.
  - destruct (Z.eqb rc 0); simpl.
    + eexists. reflexivity.
    + exists []. rewrite app_nil_r. reflexivity.
  - eexists. reflexivity.
Qed.



(** The three opening lines of [run]. *)
Definition opening (self : CaptainOrchestrator) (env : gmap string string) : list line :=
  [ LineStarting (agent_id self);
    LineB00tEnabled (env !! "B00T_ENABLED");
    LineFlashbackerEnabled (env !! "FLASHBACKER_ENABLED") ].

(** [run] up to the workflow: it stops there with a [TypeError] when the
    loaded context is true in an [if] and has no length. *)
Lemma captain_run_unfolded self env s :
  exists said,
    let s1 := {| store := store s; console := console s ++ said;
                 save_calls := save_calls s |} in
    captain_run self env s
    = if truthy loaded_context then
        match check_len loaded_context with
        | Raise e => (Raise e, s1)
        | Ok _ =>
            (srun in_store Captain.process_commercerack_migration;
             sdo saved <- save_session_context (session_context self);
             srun say LineWorkflowComplete;
             say LineNext)
              {| store := store s; console := console s1 ++ [LineLoaded loaded_context];
                 save_calls := save_calls s |}
        end
      else
        (srun in_store Captain.process_commercerack_migration;
         sdo saved <- save_session_context (session_context self);
         srun say LineWorkflowComplete;
         say LineNext) s1.
Proof.
  unfold captain_run.
  unfold sbind at 1. unfold say at 1. unfold sbind at 1. unfold say at 1.
  unfold sbind at 1. unfold say at 1. unfold sbind at 1.
  cbn [store console save_calls].
  destruct (load_session_context_returns
              {| store := store s;
                 console := ((console s ++ [LineStarting (agent_id self)])
                             ++ [LineB00tEnabled (env !! "B00T_ENABLED")])
                            ++ [LineFlashbackerEnabled (env !! "FLASHBACKER_ENABLED")];
                 save_calls := save_calls s |}) as [said ->].
  cbn [store console save_calls].
  exists (opening self env ++ said). cbn zeta.
  replace (console s ++ opening self env ++ said)
    with ((((console s ++ [LineStarting (agent_id self)])
            ++ [LineB00tEnabled (env !! "B00T_ENABLED")])
           ++ [LineFlashbackerEnabled (env !! "FLASHBACKER_ENABLED")]) ++ said)
    by (unfold opening; rewrite <- !app_assoc; reflexivity).
  unfold sbind at 1.
  destruct (truthy loaded_context); [| reflexivity].
  destruct (check_len loaded_context) as [[] | e]; reflexivity.
Qed.

End SessionFacts.

Section SessionProperties.
Context `{F : Flashback} `{FS : Session.FlashbackSession} `{PF : Session.PyFloat}.
Import Session.




End SessionProperties.

(** X13: [load_session_context] never raises and touches nothing.  It
    returns the parsed output of [flashback session-start] when the
    command exits with 0 and prints JSON (whatever kind of JSON value that
    is, a mapping or not), and an empty dict in every other case: the
    command cannot be started, exits with another code, or prints text
    that is not JSON. *)
Theorem X13_session_load_is_forgiving
    `{FS : Session.FlashbackSession} (s : Session.session) :
  exists loaded s',
    Session.load_session_context s = (Ok loaded, s') /\
    Session.store s' = Session.store s /\
    Session.save_calls s' = Session.save_calls s /\
    (forall v, Session.session_start = Session.SessionExited 0 (Doc v) -> loaded = v) /\
    ((forall v, Session.session_start <> Session.SessionExited 0 (Doc v)) ->
     loaded = JDict []).
Proof.
  destruct (load_session_context_returns s) as [said Hload].
  eexists. eexists. split; [exact Hload |]. cbn.
  split; [reflexivity |]. split; [reflexivity |]. unfold loaded_context. split.
  - intros v ->. reflexivity.
  - intros Hnot. destruct Session.session_start as [rc [v | text] | cls msg]; try reflexivity.
    destruct (Z.eqb_spec rc 0) as [-> | Hrc]; [| reflexivity].
    exfalso. apply (Hnot v). reflexivity.
Qed.

(** A [flashback] whose [session-start] prints the JSON number 3 and
    whose [save-session] accepts what it is given, and one that cannot be
    started at all. *)
Definition flashback_counts : Session.FlashbackSession :=
  {| Session.session_start := Session.SessionExited 0 (Doc (JInt 3));
     Session.save_session := fun _ => Exited 0 "" |}.

Definition flashback_session_missing : Session.FlashbackSession :=
  {| Session.session_start :=
       Session.SessionSpawnFailed "FileNotFoundError"
         "[Errno 2] No such file or directory: 'flashback'";
     Session.save_session := fun _ =>
       SpawnFailed "FileNotFoundError"
         "[Errno 2] No such file or directory: 'flashback'" |}.

(** Floats of the examples: a literal is zero when it is written [0.0]. *)
Definition sample_floats : Session.PyFloat := fun literal => String.eqb literal "0.0".

Definition fresh_session : Session.session :=
  {| Session.store := World ∅ [] []; Session.console := []; Session.save_calls := [] |}.

Lemma X13_session_load_is_forgiving_witness :
  (exists s', @Session.load_session_context flashback_counts fresh_session
              = (Ok (JInt 3), s')) /\
  (exists s', @Session.load_session_context flashback_session_missing fresh_session
              = (Ok (JDict []), s')).
Proof.
  split.
  - destruct (@X13_session_load_is_forgiving flashback_counts fresh_session)
      as (loaded & s' & Hload & _ & _ & Hparsed & _).
    rewrite (Hparsed (JInt 3) eq_refl) in Hload. exists s'. exact Hload.
  - destruct (@X13_session_load_is_forgiving flashback_session_missing fresh_session)
      as (loaded & s' & Hload & _ & _ & _ & Hempty).
    rewrite Hempty in Hload by (intros v; discriminate). exists s'. exact Hload.
Defined.

(** X14: a previous session that is a number stops the captain.  When
    [flashback session-start] exits with 0 and prints the JSON value
    [true] or an integer other than zero, [run] raises a [TypeError] at
    [len(prev_context)]: no task has been delegated, no file written and
    no session saved. *)
Theorem X14_unsized_session_stops_the_captain
    `{F : Flashback} `{FS : Session.FlashbackSession} `{PF : Session.PyFloat}
    (self : Session.CaptainOrchestrator) (env : gmap string string)
    (s : Session.session) (v : json) :
  Session.session_start = Session.SessionExited 0 (Doc v) ->
  v = JBool true \/ (exists z, v = JInt z /\ z <> 0) ->
  exists e s',
    Session.captain_run self env s = (Raise e, s') /\
    exn_cls e = TypeError /\
    Session.store s' = Session.store s /\
    Session.save_calls s' = Session.save_calls s.
Proof.
  intros Hstart Hv.
  destruct (captain_run_unfolded self env s) as [said Hrun]. cbn zeta in Hrun.
  assert (Hloaded : loaded_context = v).
  { unfold loaded_context. rewrite Hstart. reflexivity. }
  rewrite Hloaded in Hrun.
  destruct Hv as [-> | (z & -> & Hz)].
  - simpl in Hrun. do 2 eexists. split; [exact Hrun |]. repeat split; reflexivity.
  - simpl in Hrun. destruct (Z.eqb_spec z 0) as [| _]; [contradiction |].
    simpl in Hrun. do 2 eexists. split; [exact Hrun |]. repeat split; reflexivity.
Qed.

Lemma X14_unsized_session_stops_the_captain_witness :
  exists e s',
    @Session.captain_run flashback_missing flashback_counts sample_floats
      (Session.init ∅) ∅ fresh_session = (Raise e, s') /\
    exn_cls e = TypeError /\
    Session.store s' = Session.store fresh_session /\
    Session.save_calls s' = Session.save_calls fresh_session.
Proof.
  apply (@X14_unsized_session_stops_the_captain flashback_missing flashback_counts
           sample_floats (Session.init ∅) ∅ fresh_session (JInt 3)).
  - reflexivity.
  - right. exists 3. split; [reflexivity | discriminate].
Defined.






(** * The content generators ([specialist_agent.py], lines 90 to 265) *)

From stdpp Require Import pretty.

Module Generators.
Import Py.

(** What the generators take from Python itself and this development
    does not compute: the text of a float and of a list or dict in an
    f-string, the last component of a path, the message [Path] gives for
    an argument that is not a string, floor division of a float, and the
    characters of a string. *)
Class PyText := {
  float_str : string -> string;
  container_str : json -> string;
  path_name : string -> string;
  path_error : json -> string;
  float_floordiv : string -> Z -> string;
  characters : string -> list string
}.

(** The newline character. *)
Definition nl : string := String "010"%char "".

(** [sep.join(items)] for a list of strings. *)
Fixpoint join (sep : string) (items : list string) : string :=
  match items with
  | [] => ""
  | item :: rest =>
      match rest with
      | [] => item
      | _ => item +:+ sep +:+ join sep rest
      end
  end.

Definition obind {A B} (o : outcome A) (k : A -> outcome B) : outcome B :=
  match o with
  | Ok a => k a
  | Raise e => Raise e
  end.

Notation "'odo' x <- o ; k" := (obind o (fun x => k))
  (at level 10, x name, o at level 100, k at level 200,
   format "'[v' 'odo'  x  <-  o ; '/' k ']'").

(** [type(v).__name__]. *)
Definition type_name (v : json) : string :=
  match v with
  | JNull => "NoneType"
  | JBool _ => "bool"
  | JInt _ => "int"
  | JFloat _ => "float"
  | JStr _ => "str"
  | JList _ => "list"
  | JDict _ => "dict"
  end.

(** [str(v)], as an f-string formats a value. *)
Definition py_str `{PyText} (v : json) : string :=
  match v with
  | JNull => "None"
  | JBool true => "True"
  | JBool false => "False"
  | JInt z => pretty z
  | JFloat literal => float_str literal
  | JStr s => s
  | JList _ | JDict _ => container_str v
  end.

(** [context.get(key, default)]: only a dict has a [get]. *)
Definition context_get (context : json) (key : string) (fallback : json) : outcome json :=
  match context with
  | JDict entries => Ok (default fallback (dict_get key entries))
  | _ => Raise (Exn AttributeError
                  ("'" +:+ type_name context +:+ "' object has no attribute 'get'"))
  end.

(** The strings of a list, or the [TypeError] of [str.join] at the first
    item that is not a string. *)
Fixpoint str_items (index : nat) (items : list json) : outcome (list string) :=
  match items with
  | [] => Ok []
  | JStr s :: rest =>
      odo more <- str_items (S index) rest;
      Ok (s :: more)
  | v :: _ =>
      Raise (Exn TypeError
               ("sequence item " +:+ pretty index +:+ ": expected str instance, "
                +:+ type_name v +:+ " found"))
  end.

(** [sep.join(v)]: a list is joined when its items are strings, a
    string by its characters, a dict by its keys. *)
Definition py_join `{PyText} (sep : string) (v : json) : outcome string :=
  match v with
  | JList items =>
      odo strings <- str_items 0 items;
      Ok (join sep strings)
  | JStr s => Ok (join sep (characters s))
  | JDict entries => Ok (join sep (map fst entries))
  | _ => Raise (Exn TypeError "can only join an iterable")
  end.

(** [Path(v).name]. *)
Definition path_name_of `{PyText} (v : json) : outcome string :=
  match v with
  | JStr s => Ok (path_name s)
  | _ => Raise (Exn TypeError (path_error v))
  end.

(** [v // n] for a positive integer [n]. *)
Definition floordiv `{PyText} (v : json) (n : Z) : outcome json :=
  match v with
  | JInt z => Ok (JInt (z / n))
  | JBool b => Ok (JInt (Z.b2z b / n))
  | JFloat literal => Ok (JFloat (float_floordiv literal n))
  | _ => Raise (Exn TypeError
                  ("unsupported operand type(s) for //: '" +:+ type_name v
                   +:+ "' and 'int'"))
  end.

(** [SpecialistAgent.review_architecture]. *)
Definition review_architecture `{PyText} (context : json) : outcome string :=
  odo workspace <- context_get context "workspace_path" (JStr "commercerack-rust");
  Ok (join nl
        [ "✅ Reviewed " +:+ py_str workspace +:+ " Cargo workspace";
          "📦 Workspace structure looks good with 12 planned crates";
          "🔧 Recommend adding:";
          "  - crates/middleware/ for Axum middleware";
          "  - crates/auth/ for authentication logic";
          "  - crates/cache/ for Redis abstraction";
          "  - crates/models/ for shared domain models";
          "📝 Consider workspace-level integration tests" ]).

(** [SpecialistAgent.analyze_database]. *)
Definition analyze_database `{PyText} (context : json) : outcome string :=
  odo remaining <- context_get context "remaining_tables" (JInt 130);
  Ok (join nl
        [ "🗄️ Analyzed remaining " +:+ py_str remaining +:+ " tables";
          "Priority tables for next migration (002_*.sql):";
          "  1. EBAY_* tables (eBay integration, ~9 tables)";
          "  2. SUPPLIER_* tables (supplier management, ~6 tables)";
          "  3. SHIPPING_* tables (shipping config, ~8 tables)";
          "  4. GOOGLE_* tables (Google Shopping, ~2 tables)";
          "  5. WAREHOUSE_* tables (WMS, ~3 tables)";
          "📊 Recommend batching migrations by business domain";
          "🔍 All migrations should follow 001_*.sql pattern:";
          "   - Convert ENUMs";
          "   - Fix zero datetimes";
          "   - Add triggers for ON UPDATE" ]).

(** [SpecialistAgent.translate_rust]: [Path(source)] is evaluated when the
    first line is built, [loc // 50] when the last one is. *)
Definition translate_rust `{PyText} (context : json) : outcome string :=
  odo source <- context_get context "source_file" (JStr "");
  odo target <- context_get context "target_crate" (JStr "");
  odo loc <- context_get context "lines_of_code" (JInt 0);
  odo name <- path_name_of source;
  odo hours <- floordiv loc 50;
  Ok (join nl
        [ "🦀 Rust translation plan for " +:+ name +:+ " (" +:+ py_str loc +:+ " LOC)";
          "   Target: " +:+ py_str target;
          nl +:+ "Translation strategy:";
          "  1. Define domain models (Customer struct)";
          "  2. Implement database queries with SQLx";
          "  3. Add business logic methods";
          "  4. Create error types";
          "  5. Write unit tests";
          nl +:+ "Key patterns:";
          "  - Perl tie hash → Rust Index/IndexMut traits";
          "  - DBI queries → SQLx compile-time checked";
          "  - YAML serialization → serde_yaml";
          "  - Package globals → Arc<RwLock<T>>";
          nl +:+ "⏱️ Estimated: " +:+ py_str hours +:+ " hours for complete translation" ]).

(** [SpecialistAgent.setup_infrastructure]. *)
Definition setup_infrastructure `{PyText} (context : json) : outcome string :=
  odo terraform_path <- context_get context "terraform_path" (JStr "infra/k0s");
  Ok (join nl
        [ "🚀 DevOps setup for " +:+ py_str terraform_path;
          nl +:+ "Infrastructure deployment steps:";
          "  1. Install OpenTofu: brew install opentofu";
          "  2. Initialize: tofu init";
          "  3. Plan: tofu plan";
          "  4. Apply: tofu apply";
          nl +:+ "k0s cluster setup:";
          "  - Single-node controller with worker enabled";
          "  - Exposes ports: 6443 (API), 8080 (dashboard)";
          "  - Persistent volumes: /var/lib/k0s, /etc/k0s";
          nl +:+ "Supporting services:";
          "  - PostgreSQL 16 (port 5432)";
          "  - Redis 7 (port 6379)";
          "  - CommerceRack API (port 8000)";
          nl +:+ "📋 Post-deployment:";
          "  kubectl --kubeconfig /var/lib/k0s/pki/admin.conf get nodes" ]).

(** [SpecialistAgent.create_tests]. *)
Definition create_tests `{PyText} (context : json) : outcome string :=
  odo test_path <- context_get context "test_path" (JStr "tests");
  odo framework <- context_get context "framework" (JStr "cargo test");
  odo coverage <- context_get context "coverage_target" (JInt 80);
  Ok (join nl
        [ "🧪 Test suite creation for " +:+ py_str test_path;
          "   Framework: " +:+ py_str framework;
          "   Coverage target: " +:+ py_str coverage +:+ "%";
          nl +:+ "Test categories:";
          "  1. Unit tests (per module)";
          "     - DatabaseRouter connection pooling";
          "     - Model serialization/deserialization";
          "     - Error handling";
          "  2. Integration tests";
          "     - Database queries (testcontainers)";
          "     - Redis caching";
          "     - Multi-tenant isolation";
          "  3. End-to-end tests";
          "     - API endpoints";
          "     - Authentication flows";
          nl +:+ "📦 Dependencies needed:";
          "  - testcontainers for Postgres";
          "  - mockall for mocking";
          "  - tarpaulin for coverage" ]).

(** [SpecialistAgent.audit_security]. *)
Definition audit_security `{PyText} (context : json) : outcome string :=
  odo target <- context_get context "target" (JStr "codebase");
  odo focus <- context_get context "focus_areas" (JList []);
  odo focus_text <- py_join ", " focus;
  Ok (join nl
        [ "🔒 Security audit for " +:+ py_str target;
          "   Focus areas: " +:+ focus_text;
          nl +:+ "Findings and recommendations:";
          "  1. Password Hashing:";
          "     ✅ Use argon2 (already in Cargo.toml)";
          "     ⚠️ Ensure salt is randomly generated per user";
          "     ⚠️ Use memory-hard parameters for Argon2";
          "  2. Session Management:";
          "     🔧 Use JWT with RS256 (asymmetric)";
          "     🔧 Set short expiration times (15-30 min)";
          "     🔧 Implement refresh token rotation";
          "  3. SQL Injection:";
          "     ✅ SQLx provides compile-time query checking";
          "     ✅ Parameterized queries prevent injection";
          "  4. Additional recommendations:";
          "     - Enable CORS with strict origin checking";
          "     - Use HTTPS only in production";
          "     - Implement rate limiting per IP/user";
          "     - Add request logging for audit trails" ]).

(** [SpecialistAgent.design_api]. *)
Definition design_api `{PyText} (context : json) : outcome string :=
  odo endpoints <- context_get context "endpoints" (JList []);
  odo auth <- context_get context "auth_type" (JStr "JWT");
  odo version <- context_get context "api_version" (JStr "v1");
  odo endpoints_text <- py_join ", " endpoints;
  Ok (join nl
        [ "🌐 API Design for /" +:+ py_str version +:+ "/";
          "   Authentication: " +:+ py_str auth;
          "   Endpoints: " +:+ endpoints_text;
          nl +:+ "API Structure:";
          "  /" +:+ py_str version +:+ "/customers";
          "    GET    /            - List customers (paginated)";
          "    POST   /            - Create customer";
          "    GET    /:id         - Get customer";
          "    PUT    /:id         - Update customer";
          "    DELETE /:id         - Delete customer";
          "  /" +:+ py_str version +:+ "/products";
          "    GET    /            - List products";
          "    GET    /:pid        - Get product";
          "    GET    /search      - Search products";
          "  /" +:+ py_str version +:+ "/orders";
          "    GET    /            - List orders";
          "    POST   /            - Create order";
          "    GET    /:id         - Get order";
          "  /" +:+ py_str version +:+ "/cart";
          "    GET    /:cart_id    - Get cart";
          "    POST   /:cart_id/items - Add item";
          "    DELETE /:cart_id/items/:item_id - Remove item";
          nl +:+ "🔐 Authentication:";
          "  - POST /auth/login  → JWT token";
          "  - POST /auth/refresh → Refresh token";
          "  - All endpoints require 'Authorization: Bearer <token>'" ]).

(** The generators as the worker calls them. *)
Definition source_capabilities `{PyText} : Specialist.Capabilities :=
  {| Specialist.review_architecture := review_architecture;
     Specialist.analyze_database := analyze_database;
     Specialist.translate_rust := translate_rust;
     Specialist.setup_infrastructure := setup_infrastructure;
     Specialist.create_tests := create_tests;
     Specialist.audit_security := audit_security;
     Specialist.design_api := design_api |}.

End Generators.

(** ** Properties of the content generators *)

Section GeneratorFacts.
Context `{PT : Generators.PyText}.
Import Generators.

(** The [AttributeError] of [context.get] on a value that is not a
    dict. *)
Definition no_get (context : json) : exn :=
  Exn AttributeError ("'" +:+ type_name context +:+ "' object has no attribute 'get'").

Definition is_mapping (v : json) : bool :=
  match v with
  | JDict _ => true
  | _ => false
  end.

Definition is_str (v : json) : bool :=
  match v with
  | JStr _ => true
  | _ => false
  end.

(** What [//] accepts on its left. *)
Definition is_number (v : json) : bool :=
  match v with
  | JInt _ | JBool _ | JFloat _ => true
  | _ => false
  end.

(** What [str.join] accepts: a list of strings, a string, a dict. *)
Definition joinable (v : json) : bool :=
  match v with
  | JList items => forallb is_str items
  | JStr _ | JDict _ => true
  | _ => false
  end.

Lemma context_get_unmapped context key fallback :
  is_mapping context = false -> context_get context key fallback = Raise (no_get context).
Proof. destruct context; simpl; intros H; try reflexivity. discriminate H. Qed.

Lemma str_items_joinable index items :
  forallb is_str items = true -> exists strings, str_items index items = Ok strings.
Proof.
  revert index. induction items as [| v rest IH]; intros index; simpl.
  - eauto.
  - destruct v; simpl; try discriminate. intros Hrest.
    destruct (IH (S index) Hrest) as [more ->]. simpl. eauto.
Qed.

Lemma str_items_unjoinable index items :
  forallb is_str items = false ->
  exists e, str_items index items = Raise e /\ exn_cls e = TypeError.
Proof.
  revert index. induction items as [| v rest IH]; intros index; simpl.
  - discriminate.
  - destruct v; simpl; try (intros _; eexists; split; reflexivity).
    intros Hrest. destruct (IH (S index) Hrest) as (e & -> & He). simpl. eauto.
Qed.

Lemma py_join_joinable sep v :
  joinable v = true -> exists text, py_join sep v = Ok text.
Proof.
  destruct v; simpl; try discriminate; eauto.
  intros Hitems. destruct (str_items_joinable 0 items Hitems) as [strings ->].
  simpl. eauto.
Qed.

Lemma py_join_unjoinable sep v :
  joinable v = false -> exists e, py_join sep v = Raise e /\ exn_cls e = TypeError.
Proof.
  destruct v; simpl; try discriminate; try (intros _; eexists; split; reflexivity).
  intros Hitems. destruct (str_items_unjoinable 0 items Hitems) as (e & -> & He).
  simpl. eauto.
Qed.

(** Whatever a generator raises is an [AttributeError] or a
    [TypeError]. *)
Definition generator_error (e : exn) : Prop :=
  exn_cls e = AttributeError \/ exn_cls e = TypeError.

Lemma context_get_error context key fallback e :
  context_get context key fallback = Raise e -> generator_error e.
Proof. destruct context; simpl; intros [= <-]; left; reflexivity. Qed.

Lemma py_join_error sep v e : py_join sep v = Raise e -> generator_error e.
Proof.
  intros Hraise. right. destruct (joinable v) eqn:Hj.
  - destruct (py_join_joinable sep v Hj) as [text Hok]. congruence.
  - destruct (py_join_unjoinable sep v Hj) as (e' & Hr & He). congruence.
Qed.

Lemma path_name_of_error v e : path_name_of v = Raise e -> generator_error e.
Proof. destruct v; simpl; intros [= <-]; right; reflexivity. Qed.

Lemma floordiv_error v n e : floordiv v n = Raise e -> generator_error e.
Proof. destruct v; simpl; intros [= <-]; right; reflexivity. Qed.

Lemma obind_raise {A B} (o : outcome A) (k : A -> outcome B) e :
  obind o k = Raise e -> o = Raise e \/ exists a, o = Ok a /\ k a = Raise e.
Proof. destruct o as [a | e']; simpl; [eauto | intros [= <-]; auto]. Qed.

Ltac generator_raises :=
  repeat match goal with
  | H : obind _ _ = Raise _ |- _ =>
      apply obind_raise in H; destruct H as [H | (? & _ & H)]
  | H : context_get _ _ _ = Raise _ |- _ => exact (context_get_error _ _ _ _ H)
  | H : py_join _ _ = Raise _ |- _ => exact (py_join_error _ _ _ H)
  | H : path_name_of _ = Raise _ |- _ => exact (path_name_of_error _ _ H)
  | H : floordiv _ _ = Raise _ |- _ => exact (floordiv_error _ _ _ H)
  | H : Ok _ = Raise _ |- _ => discriminate H
  end.

Lemma generators_raise_errors context e :
  (review_architecture context = Raise e -> generator_error e) /\
  (analyze_database context = Raise e -> generator_error e) /\
  (translate_rust context = Raise e -> generator_error e) /\
  (setup_infrastructure context = Raise e -> generator_error e) /\
  (create_tests context = Raise e -> generator_error e) /\
  (audit_security context = Raise e -> generator_error e) /\
  (design_api context = Raise e -> generator_error e).
Proof.
  unfold review_architecture, analyze_database, translate_rust, setup_infrastructure,
    create_tests, audit_security, design_api.
  repeat split; intros H; generator_raises.
Qed.

End GeneratorFacts.

(** Not a mapping: every generator stops at its first [context.get]. *)
Lemma generators_without_mapping `{PT : Generators.PyText} (context : json) :
  is_mapping context = false ->
  Generators.review_architecture context = Raise (no_get context) /\
  Generators.analyze_database context = Raise (no_get context) /\
  Generators.translate_rust context = Raise (no_get context) /\
  Generators.setup_infrastructure context = Raise (no_get context) /\
  Generators.create_tests context = Raise (no_get context) /\
  Generators.audit_security context = Raise (no_get context) /\
  Generators.design_api context = Raise (no_get context).
Proof.
  intros Hno.
  unfold Generators.review_architecture, Generators.analyze_database,
    Generators.translate_rust, Generators.setup_infrastructure,
    Generators.create_tests, Generators.audit_security, Generators.design_api.
  rewrite !(context_get_unmapped context) by exact Hno. repeat split; reflexivity.
Qed.

(** Stand-ins for Python's own formatting in the examples: a float is
    shown as it is written, a list or dict as an ellipsis, a path by
    itself. *)
Definition sample_text : Generators.PyText :=
  {| Generators.float_str := fun literal => literal;
     Generators.container_str := fun _ => "[...]";
     Generators.path_name := fun path => path;
     Generators.path_error := fun _ => "expected str, bytes or os.PathLike object";
     Generators.float_floordiv := fun literal _ => literal;
     Generators.characters := fun s => [s] |}.

(** X17: every generator starts with [context.get]: given a context
    that is not a mapping, each of the seven raises the [AttributeError]
    of that call and builds nothing; given a mapping,
    [review_architecture], [analyze_database], [setup_infrastructure] and
    [create_tests] return a report whatever the mapping holds. *)
Theorem X17_generators_need_a_mapping `{PT : Generators.PyText} (context : json) :
  (is_mapping context = false ->
   Generators.review_architecture context = Raise (no_get context) /\
   Generators.analyze_database context = Raise (no_get context) /\
   Generators.translate_rust context = Raise (no_get context) /\
   Generators.setup_infrastructure context = Raise (no_get context) /\
   Generators.create_tests context = Raise (no_get context) /\
   Generators.audit_security context = Raise (no_get context) /\
   Generators.design_api context = Raise (no_get context)) /\
  (is_mapping context = true ->
   (exists report, Generators.review_architecture context = Ok report) /\
   (exists report, Generators.analyze_database context = Ok report) /\
   (exists report, Generators.setup_infrastructure context = Ok report) /\
   (exists report, Generators.create_tests context = Ok report)).
Proof.
  split.
  - apply generators_without_mapping.
  - destruct context; try discriminate. intros _.
    repeat split; eexists; reflexivity.
Qed.

Lemma X17_generators_need_a_mapping_witness :
  @Generators.audit_security sample_text (JList [JStr "password_hashing"])
  = Raise (Exn AttributeError "'list' object has no attribute 'get'") /\
  (exists report,
     @Generators.create_tests sample_text (JDict [("coverage_target", JNull)]) = Ok report).
Proof.
  destruct (@X17_generators_need_a_mapping sample_text (JList [JStr "password_hashing"]))
    as [Hraise _].
  destruct (@X17_generators_need_a_mapping sample_text (JDict [("coverage_target", JNull)]))
    as [_ Hreturn].
  split.
  - apply Hraise. reflexivity.
  - apply Hreturn. reflexivity.
Defined.

(** X18: [audit_security] and [design_api] join a value taken from the
    context.  On a mapping, [audit_security] returns exactly when
    [focus_areas] is absent or is a list of strings, a string or a dict,
    and raises a [TypeError] when it is [null], a boolean, a number or a
    list with an item that is not a string; [design_api] does the same
    with [endpoints]. *)
Theorem X18_joined_entries_must_be_joinable `{PT : Generators.PyText}
    (entries : list (string * json)) :
  let focus := default (JList []) (dict_get "focus_areas" entries) in
  let endpoints := default (JList []) (dict_get "endpoints" entries) in
  (joinable focus = true ->
   exists report, Generators.audit_security (JDict entries) = Ok report) /\
  (joinable focus = false ->
   exists e, Generators.audit_security (JDict entries) = Raise e /\ exn_cls e = TypeError) /\
  (joinable endpoints = true ->
   exists report, Generators.design_api (JDict entries) = Ok report) /\
  (joinable endpoints = false ->
   exists e, Generators.design_api (JDict entries) = Raise e /\ exn_cls e = TypeError).
Proof.
  intros focus endpoints.
  unfold Generators.audit_security, Generators.design_api. simpl.
  fold focus. fold endpoints. repeat split.
  - intros Hj. destruct (py_join_joinable ", " focus Hj) as [text ->]. simpl. eauto.
  - intros Hj. destruct (py_join_unjoinable ", " focus Hj) as (e & -> & He). simpl. eauto.
  - intros Hj. destruct (py_join_joinable ", " endpoints Hj) as [text ->]. simpl. eauto.
  - intros Hj. destruct (py_join_unjoinable ", " endpoints Hj) as (e & -> & He). simpl. eauto.
Qed.

Lemma X18_joined_entries_must_be_joinable_witness :
  (exists report,
     @Generators.audit_security sample_text
       (JDict [ ("focus_areas", JList [ JStr "password_hashing"; JStr "session_management";
                                        JStr "sql_injection" ]);
                ("target", JStr "crates/customer") ]) = Ok report) /\
  (exists e,
     @Generators.design_api sample_text
       (JDict [ ("endpoints", JList [JStr "customers"; JInt 7]) ]) = Raise e /\
     exn_cls e = TypeError).
Proof.
  split.
  - destruct (@X18_joined_entries_must_be_joinable sample_text
                [ ("focus_areas", JList [ JStr "password_hashing"; JStr "session_management";
                                          JStr "sql_injection" ]);
                  ("target", JStr "crates/customer") ]) as (Hok & _).
    apply Hok. reflexivity.
  - destruct (@X18_joined_entries_must_be_joinable sample_text
                [ ("endpoints", JList [JStr "customers"; JInt 7]) ]) as (_ & _ & _ & Hbad).
    apply Hbad. reflexivity.
Defined.

(** X19: [translate_rust] needs a path and a number.  On a mapping it
    returns exactly when [source_file] is absent or a string and
    [lines_of_code] is absent or an integer, a boolean or a float; a
    [source_file] of another kind raises the [TypeError] of [Path], and
    otherwise a [lines_of_code] of another kind raises the [TypeError] of
    [//]. *)
Theorem X19_translation_needs_path_and_number `{PT : Generators.PyText}
    (entries : list (string * json)) :
  let source := default (JStr "") (dict_get "source_file" entries) in
  let loc := default (JInt 0) (dict_get "lines_of_code" entries) in
  (is_str source = true -> is_number loc = true ->
   exists report, Generators.translate_rust (JDict entries) = Ok report) /\
  (is_str source = false ->
   Generators.translate_rust (JDict entries)
   = Raise (Exn TypeError (Generators.path_error source))) /\
  (is_str source = true -> is_number loc = false ->
   Generators.translate_rust (JDict entries)
   = Raise (Exn TypeError ("unsupported operand type(s) for //: '"
                           +:+ Generators.type_name loc +:+ "' and 'int'"))).
Proof.
  intros source loc. unfold Generators.translate_rust. simpl.
  fold source. fold loc. repeat split.
  - intros Hs Hn. destruct source; try discriminate.
    destruct loc; try discriminate; simpl; eauto.
  - intros Hs. destruct source; try discriminate; reflexivity.
  - intros Hs Hn. destruct source; try discriminate.
    destruct loc; try discriminate; reflexivity.
Qed.

Lemma X19_translation_needs_path_and_number_witness :
  (exists report,
     @Generators.translate_rust sample_text
       (JDict [ ("source_file", JStr "/home/user/commercerack-backend/lib/CUSTOMER.pm");
                ("target_crate", JStr "crates/customer");
                ("lines_of_code", JInt 2579) ]) = Ok report) /\
  @Generators.translate_rust sample_text
    (JDict [ ("source_file", JStr "lib/CART.pm"); ("lines_of_code", JStr "2579") ])
  = Raise (Exn TypeError "unsupported operand type(s) for //: 'str' and 'int'").
Proof.
  split.
  - destruct (@X19_translation_needs_path_and_number sample_text
                [ ("source_file", JStr "/home/user/commercerack-backend/lib/CUSTOMER.pm");
                  ("target_crate", JStr "crates/customer");
                  ("lines_of_code", JInt 2579) ]) as (Hok & _).
    apply Hok; reflexivity.
  - destruct (@X19_translation_needs_path_and_number sample_text
                [ ("source_file", JStr "lib/CART.pm"); ("lines_of_code", JStr "2579") ])
      as (_ & _ & Hbad).
    apply Hbad; reflexivity.
Defined.

(** ** The worker with the generators of the source *)

Lemma generator_error_is_exception e : generator_error e -> is_Exception e = true.
Proof. unfold is_Exception. intros [-> | ->]; reflexivity. Qed.

Lemma source_output_raises_exception `{PT : Generators.PyText}
    (self : Specialist.SpecialistAgent) (task : json) (e : exn) :
  @Specialist.specialist_output Generators.source_capabilities self task = Raise e ->
  is_Exception e = true.
Proof.
  unfold Specialist.specialist_output.
  assert (Hon : forall capability : json -> outcome string,
            (forall context, capability context = Raise e -> generator_error e) ->
            match subscript task "context" with
            | Ok context => capability context
            | Raise e0 => Raise e0
            end = Raise e -> is_Exception e = true).
  { intros capability Hcap.
    destruct (subscript task "context") as [context | e0] eqn:Hsub.
    - intros Hr. apply generator_error_is_exception. eapply Hcap. exact Hr.
    - intros [= <-]. eapply subscript_raises_exception. exact Hsub. }
  repeat match goal with
  | |- context [if ?b then _ else _] => destruct b
  end; try discriminate.
  all: apply Hon; intros context Hr;
    destruct (generators_raise_errors context e) as (H1 & H2 & H3 & H4 & H5 & H6 & H7);
    first [ exact (H1 Hr) | exact (H2 Hr) | exact (H3 Hr) | exact (H4 Hr)
          | exact (H5 Hr) | exact (H6 Hr) | exact (H7 Hr) ].
Qed.

(** X20: with the generators of the source a worker is stopped by an
    interrupt and by nothing else.  Whatever its role and specialist type
    and whatever its task file holds, in a world where no interrupt is
    pending the loop is still running after any number of turns. *)
Theorem X20_source_worker_is_stopped_only_by_interrupt
    `{F : Flashback} `{PT : Generators.PyText}
    (self : Specialist.SpecialistAgent) (turns : nat) (w : world) :
  calm w ->
  exists w',
    @Specialist.poll_loop F Generators.source_capabilities self turns w
    = (Ok Specialist.Next, w') /\
    calm w'.
Proof.
  intros Hc. apply poll_loop_goes_on; [| exact Hc].
  intros task e. apply source_output_raises_exception.
Qed.

Lemma X20_source_worker_is_stopped_only_by_interrupt_witness :
  exists w',
    @Specialist.poll_loop flashback_missing (@Generators.source_capabilities sample_text)
      (Specialist.make_agent security_env) 3 security_pending
    = (Ok Specialist.Next, w') /\
    calm w'.
Proof.
  apply (@X20_source_worker_is_stopped_only_by_interrupt flashback_missing sample_text
           (Specialist.make_agent security_env) 3%nat security_pending).
  repeat constructor; discriminate.
Defined.




(** ** The keys a generator reads *)

(** Two mappings give the same value, or both nothing, for each of the
    keys listed. *)
Fixpoint agree (keys : list string) (entries1 entries2 : list (string * json)) : Prop :=
  match keys with
  | [] => True
  | key :: rest =>
      dict_get key entries1 = dict_get key entries2 /\ agree rest entries1 entries2
  end.

(** X22: each generator reads the keys of its own [context.get] calls
    and nothing else: two contexts that agree on those keys (same value,
    or both without the key) get the same report or the same exception.
    The other entries a context carries are never looked at. *)
Theorem X22_generators_read_only_their_keys `{PT : Generators.PyText}
    (entries1 entries2 : list (string * json)) :
  (agree ["workspace_path"] entries1 entries2 ->
   Generators.review_architecture (JDict entries1)
   = Generators.review_architecture (JDict entries2)) /\
  (agree ["remaining_tables"] entries1 entries2 ->
   Generators.analyze_database (JDict entries1)
   = Generators.analyze_database (JDict entries2)) /\
  (agree ["source_file"; "target_crate"; "lines_of_code"] entries1 entries2 ->
   Generators.translate_rust (JDict entries1)
   = Generators.translate_rust (JDict entries2)) /\
  (agree ["terraform_path"] entries1 entries2 ->
   Generators.setup_infrastructure (JDict entries1)
   = Generators.setup_infrastructure (JDict entries2)) /\
  (agree ["test_path"; "framework"; "coverage_target"] entries1 entries2 ->
   Generators.create_tests (JDict entries1)
   = Generators.create_tests (JDict entries2)) /\
  (agree ["target"; "focus_areas"] entries1 entries2 ->
   Generators.audit_security (JDict entries1)
   = Generators.audit_security (JDict entries2)) /\
  (agree ["endpoints"; "auth_type"; "api_version"] entries1 entries2 ->
   Generators.design_api (JDict entries1)
   = Generators.design_api (JDict entries2)).
Proof.
  unfold Generators.review_architecture, Generators.analyze_database,
    Generators.translate_rust, Generators.setup_infrastructure,
    Generators.create_tests, Generators.audit_security, Generators.design_api.
  simpl. repeat split.
  - intros (H1 & _). rewrite H1. reflexivity.
  - intros (H1 & _). rewrite H1. reflexivity.
  - intros (H1 & H2 & H3 & _). rewrite H1, H2, H3. reflexivity.
  - intros (H1 & _). rewrite H1. reflexivity.
  - intros (H1 & H2 & H3 & _). rewrite H1, H2, H3. reflexivity.
  - intros (H1 & H2 & _). rewrite H1, H2. reflexivity.
  - intros (H1 & H2 & H3 & _). rewrite H1, H2, H3. reflexivity.
Qed.

Lemma X22_generators_read_only_their_keys_witness :
  @Generators.review_architecture sample_text
    (JDict [ ("workspace_path", JStr "commercerack-rust");
             ("crates_count", JInt 12);
             ("focus", JStr "modular architecture") ])
  = @Generators.review_architecture sample_text
      (JDict [ ("workspace_path", JStr "commercerack-rust") ]).
Proof.
  destruct (@X22_generators_read_only_their_keys sample_text
              [ ("workspace_path", JStr "commercerack-rust");
                ("crates_count", JInt 12);
                ("focus", JStr "modular architecture") ]
              [ ("workspace_path", JStr "commercerack-rust") ]) as (Hreview & _).
  apply Hreview. split; reflexivity.
Defined.

(** ** A task file that cannot be removed *)


